(** * Mission helper: template codec, category resolver, mission cache and
      attachment manager

    A shallow embedding of the Python sources

      - [utils/template_utils.py]  ([parse_template], [determine_category]),
      - [utils/template_loader.py] ([save_draft], [save_template]),
      - [utils/api.py]             ([get_all_missions], [load_cached_tasks]),
      - [routes/mission_routes.py] (attachment upload, promotion and lookup),

    together with the properties the specification states about them.

    Conventions.  A Python [str] is a Rocq [string]; a character is the
    code point below 256 it denotes (Latin-1), which is the range on which
    [str.strip], [str.lower] and [str.splitlines] are modelled here.  A
    Python dict keyed by strings is a [gmap string _].  Python exceptions
    are explicit: fallible operations return a sum or an option, and every
    [try ... except] of the source appears as a [match] on that result. *)

From Stdlib Require Import Ascii String List Bool Arith ZArith Lia.
From Stdlib Require Import DecimalString.
From stdpp Require Import base option list gmap strings fin_maps.

Local Open Scope string_scope.
Local Open Scope list_scope.

(** ** Python string primitives *)

Module Py.

Definition LF : ascii := "010"%char.
Definition CR : ascii := "013"%char.
Definition nl : string := String LF "".

(** [str.isspace] on one character (code points below 256): TAB, LF, VT,
    FF, CR, FS, GS, RS, US, SPACE, NEL and NBSP. *)
Definition is_space (c : ascii) : bool :=
  match c with
  | "009" | "010" | "011" | "012" | "013"
  | "028" | "029" | "030" | "031" | "032" | "133" | "160" => true
  | _ => false
  end%char.

Fixpoint lstrip (s : string) : string :=
  match s with
  | "" => ""
  | String c s' => if is_space c then lstrip s' else s
  end.

Fixpoint rstrip (s : string) : string :=
  match s with
  | "" => ""
  | String c s' =>
      match rstrip s' with
      | "" => if is_space c then "" else String c ""
      | r => String c r
      end
  end.

(** [s.strip()] *)
Definition strip (s : string) : string := rstrip (lstrip s).

(** [str.lower] on one character: A-Z and the Latin-1 capitals
    (U+00C0 - U+00DE except the multiplication sign U+00D7). *)
Definition lower_char (c : ascii) : ascii :=
  let n := nat_of_ascii c in
  if ((65 <=? n)%nat && (n <=? 90)%nat)
     || ((192 <=? n)%nat && (n <=? 222)%nat && negb (n =? 215)%nat)
  then ascii_of_nat (n + 32) else c.

Fixpoint lower (s : string) : string :=
  match s with
  | "" => ""
  | String c s' => String (lower_char c) (lower s')
  end.

(** [s.startswith(p)] *)
Fixpoint startswith (s p : string) : bool :=
  match p with
  | "" => true
  | String a p' =>
      match s with
      | "" => false
      | String b s' => Ascii.eqb a b && startswith s' p'
      end
  end.

(** [sub in s] *)
Fixpoint contains (sub s : string) : bool :=
  startswith s sub ||
  match s with
  | "" => false
  | String _ s' => contains sub s'
  end.

(** [s.split('\n')]: always at least one piece. *)
Fixpoint split_nl (s : string) : list string :=
  match s with
  | "" => [""]
  | String c s' =>
      if Ascii.eqb c LF then "" :: split_nl s'
      else match split_nl s' with
           | h :: t => String c h :: t
           | [] => [String c ""]
           end
  end.

(** ["\n".join(l)] *)
Fixpoint join_nl (l : list string) : string :=
  match l with
  | [] => ""
  | [x] => x
  | x :: l' => x +:+ nl +:+ join_nl l'
  end.

(** Line boundaries of [str.splitlines] (code points below 256):
    LF, VT, FF, CR, FS, GS, RS, NEL; CR LF counts as one boundary. *)
Definition is_linebreak (c : ascii) : bool :=
  match c with
  | "010" | "011" | "012" | "013" | "028" | "029" | "030" | "133" => true
  | _ => false
  end%char.

Fixpoint splitlines_go (cur : string) (s : string) : list string :=
  match s with
  | "" => if String.eqb cur "" then [] else [cur]
  | String c s' =>
      if is_linebreak c then
        match s' with
        | String d s'' =>
            if Ascii.eqb c CR && Ascii.eqb d LF
            then cur :: splitlines_go "" s''
            else cur :: splitlines_go "" s'
        | "" => [cur]
        end
      else splitlines_go (cur +:+ String c "") s'
  end.

(** [s.splitlines()] *)
Definition splitlines (s : string) : list string := splitlines_go "" s.

(** [s[start:end]] for [0 <= start] and [0 <= end]. *)
Definition slice (s : string) (start stop : nat) : string :=
  substring start (stop - start) s.

(** Truthiness of a [str]. *)
Definition truthy (s : string) : bool := negb (String.eqb s "").

(** [str(n)] for an [int]. *)
Definition str_of_int (n : Z) : string := NilZero.string_of_int (Z.to_int n).

(** [s.rfind(c)] for a single character; [None] stands for [-1]. *)
Fixpoint rfind (c : ascii) (s : string) : option nat :=
  match s with
  | "" => None
  | String a s' =>
      match rfind c s' with
      | Some i => Some (S i)
      | None => if Ascii.eqb a c then Some 0 else None
      end
  end.

(** [s.split('_', 1)[1] if '_' in s else s] *)
Fixpoint after_first_underscore (s : string) : option string :=
  match s with
  | "" => None
  | String a s' => if Ascii.eqb a "_" then Some s' else after_first_underscore s'
  end.

(** [any(c != '.' for c in s)] *)
Fixpoint has_non_dot (s : string) : bool :=
  match s with
  | "" => false
  | String a s' => negb (Ascii.eqb a ".") || has_non_dot s'
  end.

(** [os.path.join(a, b)] for a relative [b]. *)
Definition path_join (a b : string) : string := a +:+ "/" +:+ b.

(** [os.path.splitext(p)[0]] (posixpath): the extension starts at the last
    dot, unless that dot is not after the last slash or only dots come
    between the two. *)
Definition splitext_root (p : string) : string :=
  match rfind "." p with
  | None => p
  | Some dot_index =>
      let filename_index :=
        match rfind "/" p with Some i => S i | None => 0 end in
      if (filename_index <=? dot_index)%nat
         && has_non_dot (slice p filename_index dot_index)
      then slice p 0 dot_index
      else p
  end.

End Py.

(** ** Template codec ([utils/template_utils.py]) *)

(** The section map.  The source holds a single dict whose values are
    strings, except under the key ['scripts'], which holds a list of
    strings; the record keeps the two kinds of value apart: [texts] is the
    dict restricted to its string-valued keys, [scripts] the entry under
    ['scripts'], if any. *)
Record sections := Sections {
  texts : gmap string string;
  scripts : option (list string)
}.

Definition no_sections : sections := Sections ∅ None.

(** The alternation of the pattern, in its order. *)
Definition section_names : list string :=
  ["Introduction"; "Testing"; "Documentation";
   "conclusion-fail"; "conclusion-pass"; "Scripts"].

(** The pattern [\[(Introduction|...|Scripts)\]] tried at the head of
    [s]; the result is group 1. *)
Definition match_tag (s : string) : option string :=
  List.find (fun n => Py.startswith s ("[" +:+ n +:+ "]")) section_names.

(** One element of [pattern.finditer]. *)
Record re_match := Match {
  m_start : nat;
  m_end : nat;
  m_group1 : string
}.

(** [pattern.finditer] with [re.MULTILINE]: [^] holds at offset 0 and
    right after every LF.  [bol] says whether [pos] is such an offset.  The
    scan resumes one character further after a match, which finds the same
    matches as resuming at the end of the match: the matched text has no LF,
    so no offset inside it, nor the one at its end, is at a line start. *)
Fixpoint finditer_from (pos : nat) (bol : bool) (s : string) : list re_match :=
  match s with
  | "" => []
  | String c s' =>
      let rest := finditer_from (S pos) (Ascii.eqb c Py.LF) s' in
      match (if bol then match_tag s else None) with
      | Some n => Match pos (pos + String.length n + 2) n :: rest
      | None => rest
      end
  end.

Definition finditer (s : string) : list re_match := finditer_from 0 true s.

(** The body of the [for] loop: lines 26-36. *)
Definition store_section (section_name content : string) (secs : sections)
  : sections :=
  if String.eqb section_name "scripts" then
    Sections (texts secs)
             (Some (if Py.truthy content then Py.split_nl content else []))
  else
    Sections (<[section_name := content]> (texts secs)) (scripts secs).

(** [for i, match in enumerate(matches)]: the tail of the list gives
    [matches[i + 1]]. *)
Fixpoint parse_loop (template_str : string) (matches : list re_match)
  (secs : sections) : sections :=
  match matches with
  | [] => secs
  | m :: later =>
      let section_name := Py.lower (m_group1 m) in
      let start := m_end m in
      let stop := match later with
                  | m' :: _ => m_start m'
                  | [] => String.length template_str
                  end in
      let content := Py.strip (Py.slice template_str start stop) in
      parse_loop template_str later (store_section section_name content secs)
  end.

Definition parse_template (template_str : string) : sections :=
  parse_loop template_str (finditer template_str) no_sections.

(** ** Category resolver ([utils/template_utils.py]) *)

Definition classify (asset_type : string) : option string :=
  let asset_type := Py.lower asset_type in
  if Py.contains "host" asset_type then Some "host"
  else if Py.contains "web" asset_type then Some "web"
  else if Py.contains "mobile" asset_type then Some "mobile"
  else if Py.contains "api" asset_type then Some "api"
  else if Py.contains "sv2m" asset_type then Some "sv2m"
  else None.

Fixpoint determine_category_loop (asset_types : list string) : string :=
  match asset_types with
  | [] => "web"
  | asset_type :: rest =>
      match classify asset_type with
      | Some c => c
      | None => determine_category_loop rest
      end
  end.

(** [asset_types=None] is [None]; [if asset_types:] is false for [None]
    and for the empty list. *)
Definition determine_category (asset_types : option (list string)) : string :=
  match asset_types with
  | None | Some [] => "web"
  | Some l => determine_category_loop l
  end.

(** ** Template loader ([utils/template_loader.py]) *)

(** The request payload of [save_draft] and [save_template]: every field
    is read with [.get(key, default)], so each may be absent.  [scripts]
    arrives either as one string or as a list of strings. *)
Record draft_data := DraftData {
  mission_title : option string;
  introduction : option string;
  testing_methodology : option string;
  documentation : option string;
  conclusion_type : option string;
  conclusion : option string;
  scripts_field : option (string + list string)
}.

(** The dict literal used when the file does not exist yet. *)
Definition blank_sections : sections :=
  Sections (<["conclusion-fail" := ""]> (<["conclusion-pass" := ""]>
            (<["documentation" := ""]> (<["testing" := ""]>
            (<["introduction" := ""]> ∅)))))
           (Some []).

(** [scripts = draft_data.get('scripts', [])] followed by the
    [isinstance(scripts, str)] normalisation. *)
Definition incoming_scripts (d : draft_data) : list string :=
  match scripts_field d with
  | None => []
  | Some (inl s) =>
      List.filter (fun s => Py.truthy (Py.strip s)) (Py.splitlines s)
  | Some (inr l) => l
  end.

(** "Update only the relevant conclusion section": the five assignments
    into [sections]. *)
Definition update_sections (d : draft_data) (secs : sections) : sections :=
  let introduction := default "No introduction provided." (introduction d) in
  let testing_methodology :=
    default "No testing methodology provided." (testing_methodology d) in
  let documentation := default "No documentation provided." (documentation d) in
  let conclusion_type := default "pass" (conclusion_type d) in
  let conclusion := default "No conclusion available." (conclusion d) in
  let conclusion_key := "conclusion-" +:+ conclusion_type in
  Sections
    (<[conclusion_key := conclusion]>
       (<["documentation" := documentation]>
          (<["testing" := testing_methodology]>
             (<["introduction" := introduction]> (texts secs)))))
    (Some (incoming_scripts d)).

(** The order in which the [for] loop emits the text sections. *)
Definition emitted_keys : list string :=
  ["Introduction"; "Testing"; "Documentation";
   "conclusion-pass"; "conclusion-fail"].

(** One round of [template_content += f"[{key}]\n{content}\n\n"]. *)
Definition emit_section (secs : sections) (template_content key : string)
  : string :=
  let content := default "" (texts secs !! Py.lower key) in
  template_content +:+ "[" +:+ key +:+ "]" +:+ Py.nl +:+ content
                   +:+ Py.nl +:+ Py.nl.

(** "Add Scripts section if scripts exist": a missing entry and an empty
    list are both falsy. *)
Definition emit_scripts (secs : sections) (template_content : string)
  : string :=
  match scripts secs with
  | None | Some [] => template_content
  | Some l => template_content +:+ "[Scripts]" +:+ Py.nl +:+ Py.join_nl l
                               +:+ Py.nl
  end.

(** "Reconstruct the template content" up to the text handed to
    [file.write]: [save_template] lines 235-247; [save_draft] lines
    335-348 are the same statements, reading [sections["scripts"]] where
    [save_template] reads [sections.get('scripts')] (the entry was assigned
    a few lines above in both). *)
Definition serialize (secs : sections) : string :=
  Py.strip (emit_scripts secs (fold_left (emit_section secs) emitted_keys "")).

(** [save_draft], from "Read existing draft if it exists" on: [existing]
    is the text [file.read()] returns when the draft file is there, and the
    result is the text written back to that file.  (The lines before choose
    the file name and record it in [draft_mapping.json]; they do not touch
    the content.) *)
Definition save_draft (existing : option string) (d : draft_data) : string :=
  let secs := match existing with
              | Some existing_content => parse_template existing_content
              | None => blank_sections
              end in
  serialize (update_sections d secs).

(** [save_template] performs the same steps on the template file, behind
    the guard [if os.path.exists(filepath) and not overwrite]: [None] says
    that nothing is written. *)
Definition save_template (existing : option string) (overwrite : bool)
  (d : draft_data) : option string :=
  match existing with
  | Some _ => if overwrite then Some (save_draft existing d) else None
  | None => Some (save_draft None d)
  end.

(** ** Mission cache ([utils/api.py]) *)

Module Api.

(** Python exceptions that the fetch can meet: the [requests] family
    (connection errors) and the plain [Exception] the code raises itself. *)
Inductive exn :=
  | RequestException (msg : string)
  | Exception (msg : string).

(** How a call ends. *)
Inductive completion (A : Type) :=
  | Returns (a : A)
  | Raises (e : exn).
Arguments Returns {A} a.
Arguments Raises {A} e.

(** The second component of the result of [get_all_missions]. *)
Record status := Status {
  success : bool;
  source : string;
  error : option string
}.

Section Cache.

(** A raw mission object as the platform returns it. *)
Context {mission : Type}.

(** The module globals. *)
Record cache_state := CacheState {
  last_fetch_time : Z;
  cached_missions : option (list mission);
  has_loaded_initial : bool
}.

(** Process start: [_last_fetch_time = 0], [_cached_missions = None],
    [_has_loaded_initial = False]. *)
Definition startup : cache_state := CacheState 0 None false.

(** The files the function reads and writes: [tasks.json] ([None] when it
    is missing or does not parse), its modification time and the token
    file ([None] when it cannot be read). *)
Record disk := Disk {
  tasks_json : option (list mission);
  tasks_mtime : Z;
  token_file : option string
}.

(** What one GET of the paginated listing gives. *)
Inductive response :=
  | Response (status_code : Z) (json : list mission)
  | ConnectionError (msg : string).

(** The platform, as seen by one call: the answer to the request for each
    page. *)
Definition server := nat -> response.

Definition load_cached_tasks (dk : disk) : list mission :=
  match tasks_json dk with
  | Some tasks => tasks
  | None => []
  end.

Definition read_auth_token (dk : disk) : option string :=
  match token_file dk with
  | Some text => Some (Py.strip text)
  | None => None
  end.

Definition per_page : nat := 20.

(** The [while True] loop.  [fuel] bounds the number of requests; [None]
    is the loop still running when the fuel is spent.  The second component
    lists the pages requested, oldest first. *)
Fixpoint fetch_pages (fuel : nat) (srv : server) (page : nat)
  (tasks : list mission) (requested : list nat)
  : option (completion (list mission) * list nat) :=
  match fuel with
  | O => None
  | S fuel' =>
      let requested := requested ++ [page] in
      match srv page with
      | ConnectionError msg => Some (Raises (RequestException msg), requested)
      | Response status_code new_tasks =>
          if (status_code =? 200)%Z then
            let tasks := tasks ++ new_tasks in
            if (length new_tasks <? per_page)%nat
            then Some (Returns tasks, requested)
            else fetch_pages fuel' srv (S page) tasks requested
          else if (status_code =? 401)%Z then
            Some (Raises (Exception
                    "API call failed please check authentication"),
                  requested)
          else Some (Returns tasks, requested)
      end
  end.

(** Everything observable of one call: how it ended, the globals and the
    files afterwards, and the pages it requested from the platform.  (A
    rewritten [tasks.json] is given the time of the call as its
    modification time.) *)
Record outcome := Outcome {
  result : completion (list mission * status);
  state_after : cache_state;
  disk_after : disk;
  requests : list nat
}.

(** The three [return cached_missions, {... 'cache_fallback' ...}]. *)
Definition cache_fallback (st : cache_state) (dk : disk) (err : string)
  (requested : list nat) : outcome :=
  Outcome (Returns (load_cached_tasks dk,
                    Status false "cache_fallback" (Some err)))
          st dk requested.

Definition get_all_missions (fuel : nat) (srv : server) (current_time : Z)
  (force_refresh : bool) (st : cache_state) (dk : disk) : option outcome :=
  let initial :=
    if negb (has_loaded_initial st) then
      match load_cached_tasks dk with
      | [] => None
      | missions =>
          Some (Outcome
                  (Returns (missions, Status true "initial_cache" None))
                  (CacheState (tasks_mtime dk) (Some missions) true)
                  dk [])
      end
    else None in
  match initial with
  | Some out => Some out
  | None =>
  match (if negb force_refresh then cached_missions st else None) with
  | Some cached =>
      Some (Outcome (Returns (cached, Status true "memory_cache" None))
                    st dk [])
  | None =>
  (* try: *)
  match read_auth_token dk with
  | None | Some "" => Some (cache_fallback st dk "No auth token found" [])
  | Some _ =>
      (* try: *)
      match fetch_pages fuel srv 1 [] [] with
      | None => None
      | Some (Returns [], requested) =>
          Some (cache_fallback st dk "No tasks fetched from API" requested)
      | Some (Returns tasks, requested) =>
          Some (Outcome (Returns (tasks, Status true "api" None))
                        (CacheState current_time (Some tasks)
                                    (has_loaded_initial st))
                        (Disk (Some tasks) current_time (token_file dk))
                        requested)
      (* except requests.exceptions.RequestException as e: *)
      | Some (Raises (RequestException e), requested) =>
          Some (cache_fallback st dk
                  ("Network error while fetching tasks: " +:+ e) requested)
      (* except Exception as e: *)
      | Some (Raises (Exception e), requested) =>
          Some (cache_fallback st dk ("Error fetching tasks: " +:+ e)
                               requested)
      end
  end
  end
  end.

(** [force_refresh_missions] *)
Definition force_refresh_missions (fuel : nat) (srv : server)
  (current_time : Z) (st : cache_state) (dk : disk) : option outcome :=
  get_all_missions fuel srv current_time true
    (CacheState 0 None (has_loaded_initial st)) dk.

End Cache.

Arguments cache_state : clear implicits.
Arguments disk : clear implicits.
Arguments response : clear implicits.
Arguments server : clear implicits.
Arguments outcome : clear implicits.

End Api.

(** ** Attachment manager ([routes/mission_routes.py]) *)

Module Attachments.

(** JSON scalars, as they occur in sidecars, in the entries of
    [uploaded_files] and in the platform's answers. *)
Inductive jval :=
  | JNull
  | JBool (b : bool)
  | JNum (n : Z)
  | JStr (s : string).

Global Instance jval_eq_dec : EqDecision jval.
Proof. solve_decision. Defined.

(** A Python dict with string keys and scalar values. *)
Abbreviation dict := (gmap string jval).

(** What a file holds: the bytes of an attachment, or the JSON object
    that [json.dump] wrote ([json.load] raises on anything else). *)
Inductive content :=
  | Raw (bytes : string)
  | Json (o : dict).

Inductive node :=
  | Directory
  | Regular (data : content).

(** The file system: what is at each path. *)
Abbreviation fs := (gmap string node).

Definition exists_ (f : fs) (path : string) : bool :=
  bool_decide (is_Some (f !! path)).

Definition isfile (f : fs) (path : string) : bool :=
  match f !! path with
  | Some (Regular _) => true
  | _ => false
  end.

(** [os.makedirs(path, exist_ok=True)] *)
Definition makedirs (path : string) (f : fs) : fs :=
  match f !! path with
  | Some _ => f
  | None => <[path := Directory]> f
  end.

(** [os.remove(path)]: [None] is the [OSError] raised when no regular
    file is there. *)
Definition remove (path : string) (f : fs) : option fs :=
  match f !! path with
  | Some (Regular _) => Some (delete path f)
  | _ => None
  end.

(** [os.rename(src, dst)]: [None] is the [OSError] raised when [src] is
    missing or [dst] is a directory. *)
Definition rename (src dst : string) (f : fs) : option fs :=
  match f !! src, f !! dst with
  | Some n, (None | Some (Regular _)) => Some (<[dst := n]> (delete src f))
  | _, _ => None
  end.

(** [json.load(open(path))]: [None] is any exception raised on the way. *)
Definition json_load (f : fs) (path : string) : option dict :=
  match f !! path with
  | Some (Regular (Json o)) => Some o
  | _ => None
  end.

(** [json.dump(o, open(path, 'w'))] *)
Definition json_dump (path : string) (o : dict) (f : fs) : fs :=
  <[path := Regular (Json o)]> f.

(** Truthiness of a scalar, and its rendering inside an f-string. *)
Definition jtruthy (v : jval) : bool :=
  match v with
  | JNull => false
  | JBool b => b
  | JNum n => negb (n =? 0)%Z
  | JStr s => Py.truthy s
  end.

Definition jformat (v : jval) : string :=
  match v with
  | JNull => "None"
  | JBool true => "True"
  | JBool false => "False"
  | JNum n => Py.str_of_int n
  | JStr s => s
  end.

(** [d[key]] where a path or a name is expected: [None] is the [KeyError]
    (or the [TypeError] of using a non-string as one). *)
Definition dict_str (d : dict) (key : string) : option string :=
  match d !! key with
  | Some (JStr s) => Some s
  | _ => None
  end.

(** *** Lookup by id ([upload_to_api], "Find the file based on the
    attachment_id") *)

(** One round of [for filename in os.listdir(attachments_dir)]:
    [Some (attachment_file, metadata_file)] when the round ends in
    [break], [None] when the loop goes on to the next name. *)
Definition check_file (f : fs) (attachments_dir metadata_dir : string)
  (attachment_id filename : string) : option (string * string) :=
  let file_path := Py.path_join attachments_dir filename in
  if negb (isfile f file_path) || Py.startswith filename "temp_"
  then None
  else if Py.startswith filename (attachment_id +:+ "_")
  then Some (filename, Py.path_join metadata_dir (filename +:+ ".json"))
  else if String.eqb (Py.splitext_root filename) attachment_id
  then Some (filename, Py.path_join metadata_dir (filename +:+ ".json"))
  else
    let potential_metadata :=
      Py.path_join metadata_dir (filename +:+ ".json") in
    if exists_ f potential_metadata then
      match json_load f potential_metadata with
      | Some metadata =>
          if bool_decide (metadata !! "id" = Some (JStr attachment_id))
          then Some (filename, potential_metadata)
          else None
      | None => None
      end
    else None.

(** The loop; [listing] is what [os.listdir] returned. *)
Fixpoint find_attachment (f : fs) (attachments_dir metadata_dir : string)
  (attachment_id : string) (listing : list string) : option (string * string) :=
  match listing with
  | [] => None
  | filename :: rest =>
      match check_file f attachments_dir metadata_dir attachment_id filename with
      | Some found => Some found
      | None =>
          find_attachment f attachments_dir metadata_dir attachment_id rest
      end
  end.

(** The test that follows the loop: [true] when the endpoint goes on,
    [false] when it answers 404 "Attachment file not found". *)
Definition lookup_succeeds (f : fs) (attachments_dir metadata_dir : string)
  (attachment_id : string) (listing : list string) : bool :=
  match find_attachment f attachments_dir metadata_dir attachment_id listing with
  | Some (attachment_file, _) =>
      Py.truthy attachment_file
      && exists_ f (Py.path_join attachments_dir attachment_file)
  | None => false
  end.

(** The name under which [path] is an entry of [dir], if it is one. *)
Definition entry_name (dir path : string) : option string :=
  if Py.startswith path (dir +:+ "/") then
    let name := substring (String.length dir + 1)
                          (String.length path - (String.length dir + 1)) path in
    if Py.truthy name && negb (Py.contains "/" name) then Some name else None
  else None.

(** The entries of [dir], in the order of the map. *)
Definition listdir (f : fs) (dir : string) : list string :=
  omap (fun entry => entry_name dir entry.1) (map_to_list f).

(** [os.listdir(dir)] returns the entries of [dir] in an order of its
    own. *)
Definition is_listing (f : fs) (dir : string) (listing : list string) : Prop :=
  listing ≡ₚ listdir f dir.

(** *** Promotion to the remote id ([upload_attachments], "Update local
    metadata with returned Synack IDs") *)

(** The body of the [try] for one pair [(api_item, local_item)], once
    [synack_id] is known to be truthy and [metadata_path] has been read
    from [local_item].  [None] is an exception, which the [except] around
    it logs; the writes made before it stay. *)
Definition promote_try (attachments_dir metadata_dir now : string)
  (synack_id : jval) (metadata_path : string) (local_item : dict) (f : fs)
  : fs * option dict :=
  match json_load f metadata_path with
  | None => (f, None)
  | Some meta =>
      let meta := <["upload_api_time" := JStr now]>
                    (<["uploaded_to_api" := JBool true]>
                       (<["synack_id" := synack_id]> meta)) in
      let f := json_dump metadata_path meta f in
      match dict_str local_item "filename" with
      | None => (f, None)
      | Some filename =>
          if Py.startswith filename (jformat synack_id +:+ "_")
          then (f, Some local_item)
          else
            let base_filename :=
              default filename (Py.after_first_underscore filename) in
            let new_filename := jformat synack_id +:+ "_" +:+ base_filename in
            let new_file_path := Py.path_join attachments_dir new_filename in
            match dict_str local_item "file_path" with
            | None => (f, None)
            | Some file_path =>
                match rename file_path new_file_path f with
                | None => (f, None)
                | Some f1 =>
                    let new_metadata_path :=
                      Py.path_join metadata_dir (new_filename +:+ ".json") in
                    match rename metadata_path new_metadata_path f1 with
                    | None => (f1, None)
                    | Some f2 =>
                        let meta := <["filename" := JStr new_filename]> meta in
                        (json_dump new_metadata_path meta f2,
                         Some (<["file_path" := JStr new_file_path]>
                                 (<["metadata_path" := JStr new_metadata_path]>
                                    (<["filename" := JStr new_filename]>
                                       local_item))))
                    end
                end
            end
      end
  end.

(** One round of [for api_item, local_item in zip(api_results,
    uploaded_files)].  The outer [None] is the [KeyError] of
    [local_item['metadata_path']], which is outside the [try]. *)
Definition promote_item (attachments_dir metadata_dir now : string)
  (api_item local_item : dict) (f : fs) : option (fs * dict) :=
  let synack_id := default JNull (api_item !! "id") in
  if negb (jtruthy synack_id) then Some (f, local_item)
  else
    match dict_str local_item "metadata_path" with
    | None => None
    | Some metadata_path =>
        match promote_try attachments_dir metadata_dir now synack_id
                          metadata_path local_item f with
        | (f', Some local_item') => Some (f', local_item')
        | (f', None) => Some (f', local_item)
        end
    end.

(** *** The combined remote upload ([upload_multiple_attachments_to_api]) *)

(** The body of the platform's answer, as [response.json()] sees it. *)
Inductive body :=
  | EmptyText
  | Object (o : dict)
  | Array (items : list dict)
  | OtherJson.

(** What [requests.post] does: it raises, or it returns a response. *)
Inductive answer :=
  | PostRaises (msg : string)
  | PostResponse (status_code : Z) (text : body).

(** The fields of a mission the attachment API is addressed with. *)
Record mission := Mission {
  listingCodename : option string;
  organizationUid : option string;
  listingUid : option string;
  campaignUid : option string
}.

(** [att[key]]: the [inl] message is [str(KeyError(key))]. *)
Definition item (att : dict) (key : string) : string + jval :=
  match att !! key with
  | Some v => inr v
  | None => inl ("'" +:+ key +:+ "'")
  end.

(** [open(path, 'rb')]: the [inl] message is that of the [OSError]. *)
Definition open_rb (f : fs) (path : string) : string + string :=
  match f !! path with
  | Some (Regular (Raw bytes)) => inr bytes
  | Some (Regular (Json _)) => inr ""
  | Some Directory => inl ("[Errno 21] Is a directory: '" +:+ path +:+ "'")
  | None => inl ("[Errno 2] No such file or directory: '" +:+ path +:+ "'")
  end.

(** The [for att in attachments] loop that opens the files and builds the
    multipart fields; [inl msg] is the exception that ends it. *)
Fixpoint open_attachments (f : fs) (attachments : list dict)
  : string + list (jval * string * jval) :=
  match attachments with
  | [] => inr []
  | att :: rest =>
      match item att "file_path" with
      | inl e => inl e
      | inr file_path =>
          match open_rb f (jformat file_path) with
          | inl e => inl e
          | inr fh =>
              match item att "original_filename" with
              | inl e => inl e
              | inr original_filename =>
                  match item att "content_type" with
                  | inl e => inl e
                  | inr content_type =>
                      match open_attachments f rest with
                      | inl e => inl e
                      | inr fields =>
                          inr ((original_filename, fh, content_type) :: fields)
                      end
                  end
              end
          end
      end
  end.

Definition all_truthy (l : list (option string)) : bool :=
  forallb (fun o => match o with Some s => Py.truthy s | None => false end) l.

(** [token] is the text of the configured token file, [None] when it is
    not configured or missing; [post] is what the one [requests.post] of
    the call does with the fields it is given. *)
Definition upload_multiple_attachments_to_api (f : fs) (token : option string)
  (post : list (jval * string * jval) -> answer)
  (attachments : list dict) (m : mission)
  : bool * string * option (list dict) :=
  if negb (Py.truthy (default "" (Py.strip <$> token)))
  then (false, "No authentication token available", None)
  else if negb (all_truthy [organizationUid m; listingUid m; campaignUid m])
  then (false, "Missing mission UID components", None)
  else
    match open_attachments f attachments with
    | inl e => (false, "Error uploading to API: " +:+ e, None)
    | inr fields =>
        match post fields with
        | PostRaises e => (false, "Error uploading to API: " +:+ e, None)
        | PostResponse status_code text =>
            if negb ((status_code =? 200)%Z || (status_code =? 201)%Z)
            then (false, "API request failed with status "
                           +:+ Py.str_of_int status_code, None)
            else
              let api_results :=
                match text with
                | Object o => [o]
                | Array items => items
                | EmptyText | OtherJson => []
                end in
              match api_results with
              | [] => (false, "No Synack ID in API response", None)
              | _ => (true, "Successfully uploaded to API", Some api_results)
              end
        end
    end.

(** *** The upload endpoints ([upload_attachments],
    [upload_single_attachment]) *)

(** One element of [request.files.getlist('file')]. *)
Record upload := Upload {
  filename : string;
  data : string;
  content_type : option string
}.

(** The JSON answer of an endpoint and its HTTP status; [error_type] and
    [reply_files] are the keys ["error_type"] and ["files"], present in
    some answers only. *)
Record reply := Reply {
  http_status : Z;
  success : bool;
  message : string;
  error_type : option string;
  reply_files : list dict
}.

(** The [try] inside the rollback loop, for one [u]; an exception in it
    is passed over ([except Exception: pass]). *)
Definition rollback_one (u : dict) (f : fs) : fs :=
  match dict_str u "file_path" with
  | None => f
  | Some file_path =>
      match (if exists_ f file_path then remove file_path f else Some f) with
      | None => f
      | Some f1 =>
          match dict_str u "metadata_path" with
          | None => f1
          | Some metadata_path =>
              if exists_ f1 metadata_path
              then default f1 (remove metadata_path f1)
              else f1
          end
      end
  end.

(** [for u in uploaded_files: ...] *)
Definition rollback (uploaded_files : list dict) (f : fs) : fs :=
  fold_left (fun f u => rollback_one u f) uploaded_files f.

(** [for api_item, local_item in zip(api_results, uploaded_files)]; the
    second component is [None] when [local_item['metadata_path']] raised. *)
Fixpoint promote_all (attachments_dir metadata_dir now : string)
  (api_results uploaded_files : list dict) (f : fs) : fs * option (list dict) :=
  match api_results, uploaded_files with
  | api_item :: api_rest, local_item :: local_rest =>
      match promote_item attachments_dir metadata_dir now api_item local_item f with
      | None => (f, None)
      | Some (f1, local_item') =>
          match promote_all attachments_dir metadata_dir now
                            api_rest local_rest f1 with
          | (f2, Some rest') => (f2, Some (local_item' :: rest'))
          | (f2, None) => (f2, None)
          end
      end
  | _, _ => (f, Some uploaded_files)
  end.

(** [for idx, api_item in enumerate(api_results):
       uploaded_files[idx]['synack_id'] = api_item.get('id')];
    [None] is the [IndexError]. *)
Fixpoint record_ids (api_results uploaded_files : list dict)
  : option (list dict) :=
  match api_results, uploaded_files with
  | [], _ => Some uploaded_files
  | _ :: _, [] => None
  | api_item :: api_rest, local_item :: local_rest =>
      match record_ids api_rest local_rest with
      | Some rest' =>
          Some (<["synack_id" := default JNull (api_item !! "id")]> local_item
                :: rest')
      | None => None
      end
  end.

Section Endpoints.

(** [werkzeug.utils.secure_filename]. *)
Variable secure_filename : string -> string.
(** The successive values of [str(uuid.uuid4())] during the call. *)
Variable uuid4 : nat -> string.
(** [datetime.now().isoformat()]. *)
Variable now : string.
(** [current_app.config["UPLOAD_FOLDER"]], the token file's text and the
    platform. *)
Variable upload_folder : string.
Variable token : option string.
Variable post : list (jval * string * jval) -> answer.

(** The dict appended to [uploaded_files]: [upload_attachments] records
    the two paths and the content type ... *)
Definition entry_with_paths (attachment_id filename original_filename : string)
  (metadata : dict) (metadata_path file_path : string) : dict :=
  <["content_type" := default JNull (metadata !! "content_type")]>
    (<["file_path" := JStr file_path]>
       (<["metadata_path" := JStr metadata_path]>
          (<["size" := default JNull (metadata !! "size")]>
             (<["title" := default JNull (metadata !! "title")]>
                (<["original_filename" := JStr original_filename]>
                   (<["filename" := JStr filename]>
                      (<["id" := JStr attachment_id]> ∅))))))).

(** ... [upload_single_attachment] does not. *)
Definition entry_without_paths (attachment_id filename original_filename : string)
  (metadata : dict) (metadata_path file_path : string) : dict :=
  <["size" := default JNull (metadata !! "size")]>
    (<["title" := default JNull (metadata !! "title")]>
       (<["original_filename" := JStr original_filename]>
          (<["filename" := JStr filename]>
             (<["id" := JStr attachment_id]> ∅)))).

Section Handler.

(** The dict literal of the endpoint at hand. *)
Variable entry : string -> string -> string -> dict -> string -> string -> dict.

(** [for file in files:], storing each file and its sidecar; [k] counts
    the identifiers drawn so far.  Writing into the map cannot fail, so the
    [except] of the loop body, which answers 500 at once, has no
    counterpart here. *)
Fixpoint save_locally (attachments_dir metadata_dir title description : string)
  (files : list upload) (k : nat) (f : fs) (uploaded_files : list dict)
  : fs * list dict :=
  match files with
  | [] => (f, uploaded_files)
  | file :: rest =>
      if Py.truthy (filename file) then
        let attachment_id := uuid4 k in
        let original_filename := secure_filename (filename file) in
        let filename := attachment_id +:+ "_" +:+ original_filename in
        let file_path := Py.path_join attachments_dir filename in
        let f := <[file_path := Regular (Raw (data file))]> f in
        let metadata : dict :=
          <["uploaded_to_api" := JBool false]>
            (<["upload_time" := JStr now]>
               (<["size" := JNum (Z.of_nat (String.length (data file)))]>
                  (<["content_type" :=
                       JStr (match content_type file with
                             | Some "" | None => "application/octet-stream"
                             | Some t => t
                             end)]>
                     (<["description" := JStr description]>
                        (<["title" :=
                             JStr (if Py.truthy title then title
                                   else Py.splitext_root original_filename)]>
                           (<["filename" := JStr filename]>
                              (<["original_filename" := JStr original_filename]>
                                 (<["id" := JStr attachment_id]> ∅)))))))) in
        let metadata_path :=
          Py.path_join metadata_dir (filename +:+ ".json") in
        let f := json_dump metadata_path metadata f in
        save_locally attachments_dir metadata_dir title description rest (S k) f
          (uploaded_files ++ [entry attachment_id filename original_filename
                                    metadata metadata_path file_path])
      else
        save_locally attachments_dir metadata_dir title description rest k f
          uploaded_files
  end.

(** The endpoint from "Get listing codename" on; [m] is the mission
    found for [mission_id]. *)
Definition handle_upload (mission_id : string) (m : mission)
  (title description : string) (files : list upload) (f : fs) : reply * fs :=
  let listing_codename := default "unknown" (listingCodename m) in
  if negb (existsb (fun file => Py.truthy (filename file)) files)
  then (Reply 400 false "No files uploaded" None [], f)
  else
    let attachments_dir :=
      Py.path_join (Py.path_join upload_folder listing_codename) mission_id in
    let metadata_dir := Py.path_join attachments_dir "metadata" in
    let f := makedirs metadata_dir (makedirs attachments_dir f) in
    let '(f, uploaded_files) :=
      save_locally attachments_dir metadata_dir title description files 0 f [] in
    match upload_multiple_attachments_to_api f token post uploaded_files m with
    | (false, message, _) =>
        (Reply 500 false ("Failed to upload files to Synack API: " +:+ message)
               (Some "api_upload_failed") [],
         rollback uploaded_files f)
    | (true, _, None) =>
        (Reply 500 false
           "Error uploading to API: 'NoneType' object is not iterable" None [],
         f)
    | (true, _, Some api_results) =>
        match promote_all attachments_dir metadata_dir now
                          api_results uploaded_files f with
        | (f, None) =>
            (Reply 500 false "Error uploading to API: 'metadata_path'" None [],
             f)
        | (f, Some uploaded_files) =>
            match record_ids api_results uploaded_files with
            | None =>
                (Reply 500 false
                   "Error uploading to API: list index out of range" None [],
                 f)
            | Some uploaded_files =>
                (Reply 200 true
                   ("Successfully uploaded "
                      +:+ Py.str_of_int (Z.of_nat (length uploaded_files))
                      +:+ " file(s)")
                   None uploaded_files, f)
            end
        end
    end.

End Handler.

(** [POST /upload_attachments]: the mission id is a form field; [m] is
    what [get_mission_by_id] returns for it. *)
Definition upload_attachments (mission_id : option string) (m : option mission)
  (title description : string) (files : list upload) (f : fs) : reply * fs :=
  match mission_id with
  | None | Some "" => (Reply 400 false "Mission ID is required" None [], f)
  | Some mission_id =>
      match m with
      | None => (Reply 404 false "Mission not found" None [], f)
      | Some m =>
          handle_upload entry_with_paths mission_id m title description files f
      end
  end.

(** [POST /mission/<mission_id>/upload_attachment]: "alias for
    upload_attachments endpoint". *)
Definition upload_single_attachment (mission_id : string) (m : option mission)
  (title description : string) (files : list upload) (f : fs) : reply * fs :=
  match m with
  | None => (Reply 404 false "Mission not found" None [], f)
  | Some m =>
      handle_upload entry_without_paths mission_id m title description files f
  end.

(** The paths at which the batch stores its files and sidecars. *)
Fixpoint batch_paths (attachments_dir metadata_dir : string)
  (files : list upload) (k : nat) : list string :=
  match files with
  | [] => []
  | file :: rest =>
      if Py.truthy (filename file) then
        let name := uuid4 k +:+ "_" +:+ secure_filename (filename file) in
        Py.path_join attachments_dir name
          :: Py.path_join metadata_dir (name +:+ ".json")
          :: batch_paths attachments_dir metadata_dir rest (S k)
      else batch_paths attachments_dir metadata_dir rest k
  end.

End Endpoints.

End Attachments.

(** ** Drafts on disk ([utils/template_loader.py],
       [utils/mission_helpers.py]) *)

Module Loader.
Import Attachments.

(** [str.isalnum] on one character (code points below 256): the digits,
    the ASCII letters, the ordinal indicators and the micro sign, the
    superscript digits and the vulgar fractions, and the Latin-1 letters
    (U+00C0 - U+00FF except the multiplication and division signs). *)
Definition is_alnum (c : ascii) : bool :=
  let n := nat_of_ascii c in
  ((48 <=? n)%nat && (n <=? 57)%nat)
  || ((65 <=? n)%nat && (n <=? 90)%nat)
  || ((97 <=? n)%nat && (n <=? 122)%nat)
  || (n =? 170)%nat || (n =? 178)%nat || (n =? 179)%nat || (n =? 181)%nat
  || (n =? 185)%nat || (n =? 186)%nat
  || ((188 <=? n)%nat && (n <=? 190)%nat)
  || ((192 <=? n)%nat && (n <=? 214)%nat)
  || ((216 <=? n)%nat && (n <=? 246)%nat)
  || (248 <=? n)%nat.

(** [s.replace(a, b)] for single characters [a] and [b]. *)
Fixpoint replace_char (a b : ascii) (s : string) : string :=
  match s with
  | "" => ""
  | String c s' =>
      String (if Ascii.eqb c a then b else c) (replace_char a b s')
  end.

(** [''.join(c for c in s if keep(c))] *)
Fixpoint keep_chars (keep : ascii -> bool) (s : string) : string :=
  match s with
  | "" => ""
  | String c s' =>
      if keep c then String c (keep_chars keep s') else keep_chars keep s'
  end.

(** "Normalize the mission title for filesystem use" ([save_draft]). *)
Definition safe_title (mission_title : string) : string :=
  let safe_title :=
    replace_char "/" "_" (replace_char " " "_" (Py.lower mission_title)) in
  keep_chars (fun c => is_alnum c || Ascii.eqb c "_" || Ascii.eqb c "-")
             safe_title.

(** The name of the draft file, without its extension. *)
Definition draft_filename (filename : string) (d : draft_data) : string :=
  let mission_title := default "" (mission_title d) in
  if Py.truthy mission_title then safe_title mission_title else filename.

(** [format_template_data]: the dict under ['sections'] ... *)
Record shown_sections := ShownSections {
  shown_introduction : string;
  shown_testing_methodology : string;
  shown_documentation : string;
  shown_scripts : string + list string;
  shown_conclusion_pass : string;
  shown_conclusion_fail : string;
  shown_conclusion_type : string;
  shown_conclusion : string
}.

(** ... and the dict returned; [is_draft] is [None] while the key is
    absent. *)
Record template_data := TemplateData {
  data_sections : shown_sections;
  data_category : string;
  data_template_path : string;
  needs_template_selection : bool;
  is_draft : option bool
}.

Definition format_template_data (secs : sections)
  (template_path category : string) : template_data :=
  let get key := default "" (texts secs !! key) in
  let conclusion_type :=
    if Py.truthy (get "conclusion-fail")
       && negb (Py.truthy (get "conclusion-pass"))
    then "fail" else "pass" in
  TemplateData
    (ShownSections
       (get "introduction") (get "testing") (get "documentation")
       (match scripts secs with Some l => inr l | None => inl "" end)
       (get "conclusion-pass") (get "conclusion-fail")
       conclusion_type
       (get ("conclusion-" +:+ conclusion_type)))
    category template_path false None.

Section Files.

(** The text [json.dump] writes for an object, which is what reading the
    file back as text gives. *)
Variable json_dumps : dict -> string.

(** [open(path, 'r').read()]; [None] is the [OSError] raised for a
    missing path or a directory. *)
Definition read_text (f : fs) (path : string) : option string :=
  match f !! path with
  | Some (Regular (Raw text)) => Some text
  | Some (Regular (Json o)) => Some (json_dumps o)
  | Some Directory | None => None
  end.

(** [os.path.isdir(path)] *)
Definition isdir (f : fs) (path : string) : bool :=
  match f !! path with
  | Some Directory => true
  | _ => false
  end.

(** [open(path, 'w')] for a [path] directly inside [directory]: it raises
    when [directory] is not a directory, and when [path] is one. *)
Definition can_write (f : fs) (directory path : string) : bool :=
  isdir f directory && negb (isdir f path).

(** [save_draft], whole.  The names come from URL path segments, so they
    are relative.  The result is the file system afterwards and the
    ['filename'] of the returned dict, [None] when an exception leaves
    the function (nothing in it is caught but a mapping file that does
    not parse, which counts as an empty mapping). *)
Definition save_draft_file (f : fs)
  (working_folder listing_codename filename : string) (d : draft_data)
  : fs * option string :=
  let directory := Py.path_join working_folder listing_codename in
  let draft_filename := draft_filename filename d in
  let metadata_file := Py.path_join directory "draft_mapping.json" in
  match (if exists_ f metadata_file then
           match f !! metadata_file with
           | Some (Regular (Json mapping)) => Some mapping
           | Some (Regular (Raw _)) => Some ∅
           | Some Directory | None => None
           end
         else Some ∅) with
  | None => (f, None)
  | Some mapping =>
      let mapping :=
        <[draft_filename := JStr filename]>
          (<[filename := JStr draft_filename]> mapping) in
      let f := if exists_ f directory then f
               else <[directory := Directory]> f in
      if negb (can_write f directory metadata_file) then (f, None)
      else
        let f := json_dump metadata_file mapping f in
        let filepath := Py.path_join directory (draft_filename +:+ ".txt") in
        match (if exists_ f filepath
               then option_map Some (read_text f filepath)
               else Some None) with
        | None => (f, None)
        | Some existing =>
            if negb (can_write f directory filepath) then (f, None)
            else (<[filepath := Regular (Raw (save_draft existing d))]> f,
                  Some draft_filename)
        end
  end.

(** [find_draft_path] *)
Definition find_draft_path (f : fs)
  (working_folder listing_codename mission_id : string) : option string :=
  let directory := Py.path_join working_folder listing_codename in
  let mapping_file := Py.path_join directory "draft_mapping.json" in
  let draft_filename :=
    if exists_ f mapping_file then
      match json_load f mapping_file with
      | Some mapping =>
          match mapping !! mission_id with
          | Some v => jformat v
          | None => mission_id
          end
      | None => mission_id
      end
    else mission_id in
  List.find (exists_ f)
    [Py.path_join directory (draft_filename +:+ ".txt");
     Py.path_join directory (mission_id +:+ ".txt")].

(** [load_task_template], "Try to load from a saved draft first": the
    dict returned from inside that [if], [None] when the function goes on
    to its fallbacks. *)
Definition load_task_template_draft (f : fs)
  (working_folder listing_codename mission_id : string)
  (category : option string) : option template_data :=
  match find_draft_path f working_folder listing_codename mission_id with
  | Some draft_path =>
      if Py.truthy draft_path && exists_ f draft_path then
        match read_text f draft_path with
        | Some draft_content =>
            let raw_sections := parse_template draft_content in
            let category :=
              match category with
              | Some c => if Py.truthy c then c else "web"
              | None => "web"
              end in
            let data := format_template_data raw_sections draft_path category in
            Some (TemplateData (data_sections data) (data_category data)
                               (data_template_path data) false (Some true))
        | None => None
        end
      else None
  | None => None
  end.

End Files.

End Loader.


(** ** Notions used to state the properties *)

(** The checking order of the category resolver, in the specification's
    words. *)
Definition checking_order : list string :=
  ["host"; "web"; "mobile"; "api"; "sv2m"].

(** The first keyword, in checking order, that occurs in [tag] regardless
    of case. *)
Definition first_keyword (tag : string) : option string :=
  List.find (fun kw => Py.contains kw (Py.lower tag)) checking_order.

(** The resolver as the specification words it: the first tag of the list
    that contains a keyword decides, by the first keyword it contains;
    [web] when there is none. *)
Definition resolve_spec (tags : option (list string)) : string :=
  default "web" (head (omap first_keyword (default [] tags))).

(** The two ways in which a forced fetch comes back empty-handed, with the
    error string reported for each and the pages requested. *)
Inductive fetch_failure {mission : Type} (fuel : nat) (srv : Api.server mission)
  : string -> list nat -> Prop :=
  | network_failure e requested :
      Api.fetch_pages fuel srv 1 [] [] =
        Some (Api.Raises (Api.RequestException e), requested) ->
      fetch_failure fuel srv ("Network error while fetching tasks: " +:+ e)
                    requested
  | zero_tasks requested :
      Api.fetch_pages fuel srv 1 [] [] = Some (Api.Returns [], requested) ->
      fetch_failure fuel srv "No tasks fetched from API" requested.

(** The call reaches the remote fetch: the initial load is behind it (or
    finds nothing), a refresh is forced, and the token file holds a token. *)
Definition reaches_fetch {mission : Type} (st : Api.cache_state mission)
  (dk : Api.disk mission) : Prop :=
  (Api.has_loaded_initial st = true \/ Api.load_cached_tasks dk = [])
  /\ exists token, Api.read_auth_token dk = Some token /\ token <> "".

(** An attachment held locally under [local_id]: its file and its
    sidecar are in place, the sidecar records the id, and [local_item] is
    its entry in [uploaded_files]. *)
Definition stored_locally (f : Attachments.fs) (attachments_dir : string)
  (local_id original_filename bytes : string) (meta local_item : Attachments.dict)
  : Prop :=
  let metadata_dir := Py.path_join attachments_dir "metadata" in
  let filename := local_id +:+ "_" +:+ original_filename in
  let file_path := Py.path_join attachments_dir filename in
  let metadata_path := Py.path_join metadata_dir (filename +:+ ".json") in
  f !! file_path = Some (Attachments.Regular (Attachments.Raw bytes))
  /\ f !! metadata_path = Some (Attachments.Regular (Attachments.Json meta))
  /\ meta !! "id" = Some (Attachments.JStr local_id)
  /\ Attachments.dict_str local_item "filename" = Some filename
  /\ Attachments.dict_str local_item "file_path" = Some file_path
  /\ Attachments.dict_str local_item "metadata_path" = Some metadata_path.

(** What the promotion to [remote_id] relies on: the remote id is not
    empty, the local id is shaped like a UUID in having no underscore, the
    file does not carry the remote prefix yet, the file names are plain
    names that do not look temporary, and no directory stands where the
    renamed file and sidecar go. *)
Definition promotable (f : Attachments.fs) (attachments_dir : string)
  (local_id remote_id original_filename : string) : Prop :=
  let metadata_dir := Py.path_join attachments_dir "metadata" in
  let filename := local_id +:+ "_" +:+ original_filename in
  let new_filename := remote_id +:+ "_" +:+ original_filename in
  remote_id <> ""
  /\ Py.contains "_" local_id = false
  /\ Py.startswith filename (remote_id +:+ "_") = false
  /\ Py.contains "/" filename = false
  /\ Py.contains "/" new_filename = false
  /\ Py.startswith new_filename "temp_" = false
  /\ f !! Py.path_join attachments_dir new_filename
       <> Some Attachments.Directory
  /\ f !! Py.path_join metadata_dir (new_filename +:+ ".json")
       <> Some Attachments.Directory.

(** A platform that answers every page with the given response. *)
Definition always {mission : Type} (r : Api.response mission)
  : Api.server mission := fun _ => r.

(** The example of the specification: an attachment saved locally under
    the id [abc], about to be promoted to the remote id [XYZ]. *)
Module Example.
Import Attachments.

Definition adir : string := "uploads/LISTING/m1".
Definition mdir : string := Py.path_join adir "metadata".

Definition sidecar : dict :=
  <["uploaded_to_api" := JBool false]>
    (<["filename" := JStr "abc_shot.png"]>
       (<["original_filename" := JStr "shot.png"]>
          (<["id" := JStr "abc"]> ∅))).

Definition local_item : dict :=
  <["file_path" := JStr "uploads/LISTING/m1/abc_shot.png"]>
    (<["metadata_path" :=
         JStr "uploads/LISTING/m1/metadata/abc_shot.png.json"]>
       (<["filename" := JStr "abc_shot.png"]> (<["id" := JStr "abc"]> ∅))).

Definition api_item : dict := <["id" := JStr "XYZ"]> ∅.

Definition disk : fs :=
  <["uploads/LISTING/m1/metadata/abc_shot.png.json" := Regular (Json sidecar)]>
    (<["uploads/LISTING/m1/abc_shot.png" := Regular (Raw "PNG")]>
       (<["uploads/LISTING/m1/metadata" := Directory]>
          (<["uploads/LISTING/m1" := Directory]> ∅))).


(** A batch of one file sent to [POST /mission/m1/upload_attachment]
    while the platform refuses uploads. *)
Definition the_mission : mission :=
  Mission (Some "LISTING") (Some "org") (Some "lst") (Some "cmp").

Definition refused : list (jval * string * jval) -> answer :=
  fun _ => PostResponse 503 EmptyText.

(** The same file sent to [POST /upload_attachments] while the platform
    accepts it and names it [XYZ]. *)
Definition accepted : list (jval * string * jval) -> answer :=
  fun _ => PostResponse 200 (Array [<["id" := JStr "XYZ"]> ∅]).

Definition uploaded : reply * fs :=
  upload_attachments (fun name => name) (fun _ => "abc")
    "2024-01-01T00:00:00" "uploads" (Some "token") accepted
    (Some "m1") (Some the_mission) "" ""
    [Upload "shot.png" "PNG" (Some "image/png")] ∅.

Definition single_upload : reply * fs :=
  upload_single_attachment (fun name => name) (fun _ => "abc")
    "2024-01-01T00:00:00" "uploads" (Some "token") refused
    "m1" (Some the_mission) "" "" [Upload "shot.png" "PNG" (Some "image/png")] ∅.


(** A report with two text sections and a script list. *)
Definition report : sections :=
  Sections (<["conclusion-pass" := "Nothing found."]>
              (<["introduction" := "Scope and goals."]> ∅))
           (Some [""; "nmap -sV"; ""; "nikto -h"]).

(** A text in which a tag follows the section tag on the same line. *)
Definition inline_tag : string := "[conclusion-fail] [Testing] foo".

End Example.

(** The paths an entry of [uploaded_files] gives to the rollback. *)
Definition entry_paths (u : Attachments.dict) : list string :=
  match Attachments.dict_str u "file_path",
        Attachments.dict_str u "metadata_path" with
  | Some file_path, Some metadata_path => [file_path; metadata_path]
  | _, _ => []
  end.

Definition tracked (uploaded_files : list Attachments.dict) : list string :=
  uploaded_files ≫= entry_paths.

Definition has_paths (u : Attachments.dict) : Prop :=
  is_Some (Attachments.dict_str u "file_path")
  /\ is_Some (Attachments.dict_str u "metadata_path").

(** *** The template format, as text *)

(** The text of [s] cut at the recognized tags that stand at a line start:
    the text before the first of them, then, for each tag, its name and
    the text from its opening bracket up to the next tag.  [bol] says
    whether [s] begins at a line start. *)
Fixpoint segments (bol : bool) (s : string) : string * list (string * string) :=
  match s with
  | "" => ("", [])
  | String c s' =>
      let '(h, segs) := segments (Ascii.eqb c Py.LF) s' in
      match (if bol then match_tag s else None) with
      | Some n => ("", (n, String c h) :: segs)
      | None => (String c h, segs)
      end
  end.

(** What follows the tag [[n]] in the text [raw] of its segment. *)
Definition after_tag (n raw : string) : string :=
  Py.slice raw (String.length n + 2) (String.length raw).

(** The sections of a text: each recognized tag with the text strictly
    between it and the next recognized tag (or the end of the text). *)
Definition sections_of (s : string) : list (string * string) :=
  List.map (fun seg => (seg.1, after_tag seg.1 seg.2)) (segments true s).2.

(** Storing one section of the text, as the loop of [parse_template]
    does. *)
Definition store_segment (secs : sections) (seg : string * string) : sections :=
  store_section (Py.lower seg.1) (Py.strip (after_tag seg.1 seg.2)) secs.

(** [s] consists of white space only. *)
Fixpoint blank (s : string) : bool :=
  match s with
  | "" => true
  | String c s' => Py.is_space c && blank s'
  end.

(** A string that begins with a character that is not white space. *)
Definition solid (s : string) : Prop :=
  exists c s', s = String c s' /\ Py.is_space c = false.

(** The text emitted for the scripts. *)
Definition scripts_text (o : option (list string)) : string :=
  match o with
  | None | Some [] => ""
  | Some l => "[Scripts]" +:+ Py.nl +:+ Py.join_nl l +:+ Py.nl
  end.

(** A list of lines without its leading, respectively trailing, empty
    entries. *)
Fixpoint drop_leading_empty (l : list string) : list string :=
  match l with
  | [] => []
  | e :: l' => if String.eqb e "" then drop_leading_empty l' else l
  end.

Fixpoint drop_trailing_empty (l : list string) : list string :=
  match l with
  | [] => []
  | e :: l' =>
      match drop_trailing_empty l' with
      | [] => if String.eqb e "" then [] else [e]
      | r => e :: r
      end
  end.

(** No recognized tag stands at a line start of [s]. *)
Fixpoint tag_free (bol : bool) (s : string) : bool :=
  match s with
  | "" => true
  | String c s' =>
      negb (bol && bool_decide (is_Some (match_tag s)))
      && tag_free (Ascii.eqb c Py.LF) s'
  end.

(** [s] has no line feed. *)
Fixpoint single_line (s : string) : bool :=
  match s with
  | "" => true
  | String c s' => negb (Ascii.eqb c Py.LF) && single_line s'
  end.

(** The value stored under ['scripts'] for the trimmed content
    [content]. *)
Definition script_lines (content : string) : list string :=
  if Py.truthy content then Py.split_nl content else [].

(** One emitted section, [f"[{key}]\n{content}\n\n"]. *)
Definition block (key content : string) : string :=
  "[" +:+ key +:+ "]" +:+ Py.nl +:+ content +:+ Py.nl +:+ Py.nl.

(** The keys of the text sections. *)
Definition text_keys : list string :=
  ["introduction"; "testing"; "documentation";
   "conclusion-pass"; "conclusion-fail"].

(** A text value that the format can carry: trimmed, and with no
    recognized tag at the start of any of its lines. *)
Definition text_ok (v : string) : Prop :=
  Py.strip v = v /\ tag_free true v = true.

(** A script entry that the format can carry: a trimmed single line that
    does not start with a recognized tag. *)
Definition script_ok (e : string) : Prop :=
  Py.strip e = e /\ single_line e = true /\ match_tag e = None.

(** A section map that the format can carry. *)
Definition representable (secs : sections) : Prop :=
  (forall k v, In k text_keys -> texts secs !! k = Some v -> text_ok v)
  /\ (forall l, scripts secs = Some l -> Forall script_ok l).

(** A section map whose contents hold no recognized tag at a line start. *)
Definition tag_free_sections (secs : sections) : Prop :=
  (forall k v, In k text_keys -> texts secs !! k = Some v ->
     tag_free true v = true)
  /\ (forall l, scripts secs = Some l -> tag_free true (Py.join_nl l) = true).

(** The entries that are not the empty string. *)
Definition non_empty_lines (l : list string) : list string :=
  List.filter Py.truthy l.

(** *** The mission cache: pagination and the token *)

(** A page that makes the [while True] loop go on: status 200 and at
    least [per_page] missions. *)
Definition full_page {mission : Type} (r : Api.response mission) : Prop :=
  exists tasks, r = Api.Response 200 tasks
                /\ (Api.per_page <= length tasks)%nat.

(** The missions of the pages [first], ..., [first + n - 1], in page
    order. *)
Definition collected {mission : Type} (srv : Api.server mission)
  (first n : nat) : list mission :=
  flat_map (fun page => match srv page with
                        | Api.Response _ tasks => tasks
                        | Api.ConnectionError _ => []
                        end)
           (seq first n).

(** The token file is missing, or holds white space only. *)
Definition no_token {mission : Type} (dk : Api.disk mission) : Prop :=
  match Api.token_file dk with
  | None => True
  | Some text => blank text = true
  end.

(** A platform that holds 22 missions: a full first page, then a page of
    two; and one that fails with status 500 after the first page. *)
Definition two_pages : Api.server nat :=
  fun page => if (page =? 1)%nat then Api.Response 200 (repeat 7%nat 20)
              else Api.Response 200 [8%nat; 9%nat].

Definition failing_second_page : Api.server nat :=
  fun page => if (page =? 1)%nat then Api.Response 200 (repeat 7%nat 20)
              else Api.Response 500 [].

(** ** Category resolver: properties *)

Lemma classify_first_keyword tag : classify tag = first_keyword tag.
Proof.
  unfold classify, first_keyword, checking_order; simpl.
  repeat match goal with |- context [if ?b then _ else _] => destruct b end;
    reflexivity.
Qed.

Lemma determine_category_loop_spec l :
  determine_category_loop l = default "web" (head (omap first_keyword l)).
Proof.
  induction l as [|tag l IH]; simpl; [reflexivity|].
  rewrite classify_first_keyword.
  destruct (first_keyword tag); simpl; [reflexivity | exact IH].
Qed.

Lemma first_keyword_range tag kw :
  first_keyword tag = Some kw -> kw ∈ checking_order.
Proof.
  unfold first_keyword. intros H.
  apply List.find_some in H as [H _]. by apply list_elem_of_In.
Qed.

Lemma resolve_spec_range tags : resolve_spec tags ∈ checking_order.
Proof.
  unfold resolve_spec.
  destruct (head _) as [kw|] eqn:E; simpl.
  - apply head_Some_elem_of in E. apply list_elem_of_omap in E as (tag & _ & E).
    by eapply first_keyword_range.
  - unfold checking_order. set_solver.
Qed.

(** C9.  [determine_category] returns one of host, web, mobile, api and
    sv2m; it is the resolver of the specification (case-insensitive
    substring match, the first tag with a match deciding, keywords tried in
    the order host, web, mobile, api, sv2m); it returns web for an absent
    list, an empty list and a list without match; and it gives the four
    values the specification lists. *)
Theorem determine_category_resolves :
  (forall tags, determine_category tags ∈ checking_order)
  /\ (forall tags, determine_category tags = resolve_spec tags)
  /\ determine_category None = "web"
  /\ determine_category (Some []) = "web"
  /\ (forall l, Forall (fun tag => first_keyword tag = None) l ->
        determine_category (Some l) = "web")
  /\ determine_category (Some ["Host Pentest"]) = "host"
  /\ determine_category (Some ["Web App"]) = "web"
  /\ determine_category (Some ["SV2M Target"]) = "sv2m".
Proof.
  assert (Hspec : forall tags, determine_category tags = resolve_spec tags).
  { intros [[|tag l]|]; try reflexivity.
    unfold determine_category. by rewrite determine_category_loop_spec. }
  split; [intros tags; rewrite Hspec; apply resolve_spec_range|].
  split; [exact Hspec|].
  repeat split; try reflexivity.
  intros l Hl. rewrite Hspec. unfold resolve_spec; simpl.
  induction Hl as [|tag l Htag _ IH]; simpl; [reflexivity|].
  by rewrite Htag.
Qed.

Lemma determine_category_resolves_witness :
  Forall (fun tag => first_keyword tag = None) ["Desktop"; "IoT"]
  /\ determine_category (Some ["Desktop"; "IoT"]) = "web".
Proof.
  assert (H : Forall (fun tag => first_keyword tag = None) ["Desktop"; "IoT"]).
  { repeat constructor. }
  split; [exact H|].
  exact (proj1 (proj2 (proj2 (proj2 (proj2 determine_category_resolves))))
               ["Desktop"; "IoT"] H).
Defined.

(** ** Mission cache: properties *)

Section CacheFacts.

Context {mission : Type}.
Implicit Types (st : Api.cache_state mission) (dk : Api.disk mission).
Implicit Types (srv : Api.server mission).

Lemma get_all_missions_after_initial fuel srv now st dk :
  reaches_fetch st dk ->
  Api.get_all_missions fuel srv now true st dk =
    match Api.fetch_pages fuel srv 1 [] [] with
    | None => None
    | Some (Api.Returns [], requested) =>
        Some (Api.cache_fallback st dk "No tasks fetched from API" requested)
    | Some (Api.Returns tasks, requested) =>
        Some (Api.Outcome (Api.Returns (tasks, Api.Status true "api" None))
                (Api.CacheState now (Some tasks) (Api.has_loaded_initial st))
                (Api.Disk (Some tasks) now (Api.token_file dk)) requested)
    | Some (Api.Raises (Api.RequestException e), requested) =>
        Some (Api.cache_fallback st dk
                ("Network error while fetching tasks: " +:+ e) requested)
    | Some (Api.Raises (Api.Exception e), requested) =>
        Some (Api.cache_fallback st dk ("Error fetching tasks: " +:+ e)
                requested)
    end.
Proof.
  intros [Hinit (token & Htok & Hne)].
  unfold Api.get_all_missions. rewrite Htok.
  assert (Hfirst :
    (if negb (Api.has_loaded_initial st)
     then match Api.load_cached_tasks dk with
          | [] => None
          | m :: l =>
              Some (Api.Outcome
                      (Api.Returns (m :: l, Api.Status true "initial_cache" None))
                      (Api.CacheState (Api.tasks_mtime dk) (Some (m :: l)) true)
                      dk [])
          end
     else None) = None).
  { destruct Hinit as [-> | ->]; [reflexivity|]. by destruct (negb _). }
  rewrite Hfirst; simpl.
  destruct token as [|c token]; [done|]. reflexivity.
Qed.

(** C3 (amended).  On a call made before the initial load is done, so in
    particular on the first call after startup, when [tasks.json] holds a
    non-empty list: the list is returned from the file with no request to
    the platform, whatever the token and [force_refresh], the flag is set
    and the status is success with source [initial_cache]. *)
Theorem first_call_loads_disk_cache fuel srv now force_refresh st dk :
  Api.has_loaded_initial st = false ->
  Api.load_cached_tasks dk <> [] ->
  Api.get_all_missions fuel srv now force_refresh st dk =
    Some (Api.Outcome
            (Api.Returns (Api.load_cached_tasks dk,
                          Api.Status true "initial_cache" None))
            (Api.CacheState (Api.tasks_mtime dk)
                            (Some (Api.load_cached_tasks dk)) true)
            dk []).
Proof.
  intros Hflag Hne. unfold Api.get_all_missions. rewrite Hflag; simpl.
  destruct (Api.load_cached_tasks dk); [done | reflexivity].
Qed.

(** C5.  On a forced fetch that reaches the platform, a connection error
    and an outcome of zero accumulated tasks both make [get_all_missions]
    return the content of [tasks.json] with success false, source
    [cache_fallback] and the error string; the globals and the files are
    left as they were. *)
Theorem fetch_failure_falls_back fuel srv now st dk err requested :
  reaches_fetch st dk ->
  fetch_failure fuel srv err requested ->
  Api.get_all_missions fuel srv now true st dk =
    Some (Api.Outcome
            (Api.Returns (Api.load_cached_tasks dk,
                          Api.Status false "cache_fallback" (Some err)))
            st dk requested).
Proof.
  intros Hreach Hfail. rewrite get_all_missions_after_initial by done.
  destruct Hfail as [e req H | req H]; by rewrite H.
Qed.

(** The two failures at their simplest: the first request meets a
    connection error, or is answered with an empty page or with a status
    other than 200 and 401. *)
Lemma fetch_failure_first_page fuel srv :
  (forall e, srv 1 = Api.ConnectionError e ->
     fetch_failure (S fuel) srv ("Network error while fetching tasks: " +:+ e)
                   [1])
  /\ (srv 1 = Api.Response 200 [] ->
      fetch_failure (S fuel) srv "No tasks fetched from API" [1])
  /\ (forall code page, srv 1 = Api.Response code page ->
       code <> 200%Z -> code <> 401%Z ->
       fetch_failure (S fuel) srv "No tasks fetched from API" [1]).
Proof.
  repeat split.
  - intros e H. apply network_failure. simpl. by rewrite H.
  - intros H. apply zero_tasks. simpl. by rewrite H.
  - intros code page H H200 H401. apply zero_tasks. simpl. rewrite H.
    apply Z.eqb_neq in H200, H401. by rewrite H200, H401.
Qed.

(** The outer [except Exception] leaves no way for the call to raise. *)
Lemma get_all_missions_returns fuel srv now force_refresh st dk out :
  Api.get_all_missions fuel srv now force_refresh st dk = Some out ->
  exists missions status, Api.result out = Api.Returns (missions, status).
Proof.
  unfold Api.get_all_missions, Api.cache_fallback.
  repeat (case_match; simplify_eq/=; try by eauto).
  all: intros; simplify_eq/=; eauto.
Qed.

End CacheFacts.

Lemma first_call_loads_disk_cache_witness :
  Api.get_all_missions 0 (always (Api.ConnectionError "down")) 50 true
    Api.startup (Api.Disk (Some [7%nat; 8%nat]) 42 (Some "token")) =
  Some (Api.Outcome
          (Api.Returns ([7%nat; 8%nat], Api.Status true "initial_cache" None))
          (Api.CacheState 42 (Some [7%nat; 8%nat]) true)
          (Api.Disk (Some [7%nat; 8%nat]) 42 (Some "token")) []).
Proof.
  apply (first_call_loads_disk_cache 0 (always (Api.ConnectionError "down")) 50
           true Api.startup (Api.Disk (Some [7%nat; 8%nat]) 42 (Some "token")));
    [reflexivity | discriminate].
Defined.

(** C3, counterexample.  First call after startup, a token at hand, and a
    [tasks.json] that is missing: the platform is asked for page 1, the
    source is [api] and the flag stays unset. *)
Lemma first_call_without_disk_cache_goes_remote :
  Api.get_all_missions 3 (always (Api.Response 200 [7%nat])) 50 false
    Api.startup (Api.Disk None 0 (Some "token")) =
  Some (Api.Outcome
          (Api.Returns ([7%nat], Api.Status true "api" None))
          (Api.CacheState 50 (Some [7%nat]) false)
          (Api.Disk (Some [7%nat]) 50 (Some "token")) [1%nat]).
Proof. reflexivity. Qed.

Lemma fetch_failure_falls_back_witness :
  Api.get_all_missions 1 (always (Api.ConnectionError "refused")) 50 true
    (Api.CacheState 10 (Some [3%nat]) true)
    (Api.Disk (Some [7%nat]) 42 (Some "token")) =
  Some (Api.Outcome
          (Api.Returns ([7%nat],
             Api.Status false "cache_fallback"
               (Some "Network error while fetching tasks: refused")))
          (Api.CacheState 10 (Some [3%nat]) true)
          (Api.Disk (Some [7%nat]) 42 (Some "token")) [1%nat]).
Proof.
  apply (fetch_failure_falls_back 1 (always (Api.ConnectionError "refused")) 50
           (Api.CacheState 10 (Some [3%nat]) true)
           (Api.Disk (Some [7%nat]) 42 (Some "token"))
           "Network error while fetching tasks: refused" [1%nat]).
  - split; [left; reflexivity|]. exists "token". split; [reflexivity | discriminate].
  - apply (network_failure 1 _ "refused" [1%nat]). reflexivity.
Defined.

(** C4, at the failing input.  A forced fetch whose first page is answered
    with 401: the call does not raise; it returns the content of
    [tasks.json] with source [cache_fallback], the authentication message
    being only the error string of the status. *)
Theorem unauthorized_fetch_returns_fallback :
  Api.get_all_missions 1 (always (Api.Response 401 [])) 50 true
    (Api.CacheState 10 (Some [3%nat]) true)
    (Api.Disk (Some [7%nat]) 42 (Some "token")) =
  Some (Api.Outcome
          (Api.Returns ([7%nat],
             Api.Status false "cache_fallback"
               (Some "Error fetching tasks: API call failed please check authentication")))
          (Api.CacheState 10 (Some [3%nat]) true)
          (Api.Disk (Some [7%nat]) 42 (Some "token")) [1%nat]).
Proof. reflexivity. Qed.

(** ** Strings: basic facts *)

Lemma str_app_cons c s t : String c s +:+ t = String c (s +:+ t).
Proof. reflexivity. Qed.

Lemma str_app_nil_l s : "" +:+ s = s.
Proof. reflexivity. Qed.

Lemma str_app_nil_r s : s +:+ "" = s.
Proof. induction s as [|c s IH]; [done|]. by rewrite str_app_cons, IH. Qed.

Lemma str_app_assoc a b c : (a +:+ b) +:+ c = a +:+ (b +:+ c).
Proof. induction a as [|x a IH]; [done|]. by rewrite !str_app_cons, IH. Qed.

Lemma str_length_app a b :
  String.length (a +:+ b) = String.length a + String.length b.
Proof. induction a as [|x a IH]; [done|]. rewrite str_app_cons; simpl. by rewrite IH. Qed.

Lemma startswith_nil s : Py.startswith s "" = true.
Proof. by destruct s. Qed.

Lemma startswith_cons a b s p :
  Py.startswith (String b s) (String a p) = Ascii.eqb a b && Py.startswith s p.
Proof. reflexivity. Qed.

Lemma startswith_app p s : Py.startswith (p +:+ s) p = true.
Proof.
  induction p as [|a p IH]; [apply startswith_nil|].
  rewrite str_app_cons, startswith_cons, IH, Ascii.eqb_refl. done.
Qed.

Lemma startswith_inv s p : Py.startswith s p = true -> exists r, s = p +:+ r.
Proof.
  revert s; induction p as [|a p IH]; intros s H; [by exists s|].
  destruct s as [|b s]; [done|].
  rewrite startswith_cons in H. apply andb_true_iff in H as [Hab H].
  apply Ascii.eqb_eq in Hab as ->. destruct (IH _ H) as [r ->]. by exists r.
Qed.

Lemma substring_0_length s : substring 0 (String.length s) s = s.
Proof. induction s as [|c s IH]; [done|]. simpl. by rewrite IH. Qed.

Lemma substring_app_skip a b m :
  substring (String.length a) m (a +:+ b) = substring 0 m b.
Proof. induction a as [|x a IH]; [done|]. rewrite str_app_cons. simpl. apply IH. Qed.

Lemma substring_prefix h t : substring 0 (String.length h) (h +:+ t) = h.
Proof.
  induction h as [|c h IH]; [by destruct t|].
  rewrite str_app_cons. simpl. by rewrite IH.
Qed.

Lemma contains_app_r sub a b :
  Py.contains sub b = true -> Py.contains sub (a +:+ b) = true.
Proof.
  intros H. induction a as [|c a IH]; [done|].
  rewrite str_app_cons. simpl. rewrite IH. apply orb_true_r.
Qed.

Lemma contains_unfold sub s :
  Py.contains sub s =
  Py.startswith s sub
  || match s with "" => false | String _ s' => Py.contains sub s' end.
Proof. by destruct s. Qed.

Lemma contains_here sub s : Py.contains sub (sub +:+ s) = true.
Proof. by rewrite contains_unfold, startswith_app. Qed.

Lemma path_join_inj dir a b : Py.path_join dir a = Py.path_join dir b -> a = b.
Proof.
  unfold Py.path_join. intros H.
  apply (inj (String.app dir)) in H. by apply (inj (String.app "/")) in H.
Qed.

(** A path below [dir/metadata] is not the path of a plain entry of
    [dir]. *)
Lemma path_join_metadata dir a b :
  Py.contains "/" a = false ->
  Py.path_join dir a <> Py.path_join (Py.path_join dir "metadata") b.
Proof.
  unfold Py.path_join. intros Ha H.
  rewrite !str_app_assoc in H. apply (inj (String.app dir)) in H.
  apply (inj (String.app "/")) in H. subst a.
  rewrite (contains_app_r "/" "metadata" ("/" +:+ b)) in Ha; [done|].
  apply contains_here.
Qed.

(** ** Attachment manager: the file system *)

Import Attachments.

Lemma entry_name_path_join dir name :
  name <> "" -> Py.contains "/" name = false ->
  entry_name dir (Py.path_join dir name) = Some name.
Proof.
  intros Hne Hslash. unfold entry_name, Py.path_join.
  rewrite <- str_app_assoc, startswith_app.
  rewrite !str_length_app; simpl String.length.
  replace (String.length dir + 1 + String.length name - (String.length dir + 1))
    with (String.length name) by lia.
  replace (String.length dir + 1) with (String.length (dir +:+ "/"))
    by (rewrite str_length_app; reflexivity).
  rewrite substring_app_skip, substring_0_length, Hslash.
  unfold Py.truthy. by destruct name.
Qed.

Lemma entry_name_nonempty dir path name :
  entry_name dir path = Some name -> name <> "".
Proof.
  unfold entry_name. destruct (Py.startswith _ _); [|done].
  destruct (Py.truthy _ && _) eqn:E; [|done].
  intros [= <-] Heq. by rewrite Heq in E.
Qed.

Lemma listdir_elem_of (f : fs) dir name :
  name <> "" -> Py.contains "/" name = false ->
  is_Some (f !! Py.path_join dir name) -> name ∈ listdir f dir.
Proof.
  intros Hne Hslash [n Hn]. unfold listdir.
  apply list_elem_of_omap. exists (Py.path_join dir name, n). split.
  - by apply elem_of_map_to_list.
  - by apply entry_name_path_join.
Qed.

Lemma listdir_nonempty (f : fs) dir name : name ∈ listdir f dir -> name <> "".
Proof.
  unfold listdir. intros (entry & _ & H)%list_elem_of_omap.
  by eapply entry_name_nonempty.
Qed.

Lemma rename_ok (f : fs) src dst n :
  f !! src = Some n -> f !! dst <> Some Directory ->
  rename src dst f = Some (<[dst := n]> (delete src f)).
Proof.
  intros Hsrc Hdst. unfold rename. rewrite Hsrc.
  destruct (f !! dst) as [[|d]|]; done.
Qed.

Lemma check_file_inv (f : fs) adir mdir id fn found :
  check_file f adir mdir id fn = Some found ->
  found.1 = fn /\ isfile f (Py.path_join adir fn) = true.
Proof.
  unfold check_file.
  destruct (isfile f (Py.path_join adir fn)); simpl; [|done].
  repeat case_match; intros; by simplify_eq.
Qed.

Lemma find_attachment_inv (f : fs) adir mdir id listing found :
  find_attachment f adir mdir id listing = Some found ->
  found.1 ∈ listing /\ isfile f (Py.path_join adir found.1) = true.
Proof.
  induction listing as [|fn listing IH]; simpl; [done|].
  destruct (check_file f adir mdir id fn) as [r|] eqn:E.
  - intros [= ->]. apply check_file_inv in E as [-> E]. split; [left | done].
  - intros H. destruct (IH H). split; [by right | done].
Qed.

Lemma find_attachment_elem (f : fs) adir mdir id listing fn :
  fn ∈ listing -> is_Some (check_file f adir mdir id fn) ->
  is_Some (find_attachment f adir mdir id listing).
Proof.
  intros Hin Hsome. induction listing as [|fn' listing IH]; simpl.
  - by apply elem_of_nil in Hin.
  - destruct (check_file f adir mdir id fn') eqn:E; [by eauto|].
    apply elem_of_cons in Hin as [->|Hin]; [|by apply IH].
    rewrite E in Hsome. by destruct Hsome.
Qed.

(** The lookup succeeds as soon as one listed file passes the tests of a
    round. *)
Lemma lookup_succeeds_intro (f : fs) adir mdir id listing fn :
  is_listing f adir listing -> fn ∈ listing ->
  is_Some (check_file f adir mdir id fn) ->
  lookup_succeeds f adir mdir id listing = true.
Proof.
  intros Hl Hin Hsome.
  destruct (find_attachment_elem f adir mdir id listing fn Hin Hsome)
    as [[a b] Hfound].
  unfold lookup_succeeds. rewrite Hfound.
  apply find_attachment_inv in Hfound as [Ha Hfile]; simpl in *.
  apply andb_true_iff; split.
  - unfold is_listing in Hl. rewrite Hl in Ha.
    apply listdir_nonempty in Ha. unfold Py.truthy. by destruct a.
  - unfold isfile in Hfile. unfold exists_.
    destruct (f !! Py.path_join adir a) eqn:E; [|done].
    apply bool_decide_eq_true. by eexists.
Qed.

Lemma after_first_underscore_app a b :
  Py.contains "_" a = false ->
  Py.after_first_underscore (a +:+ "_" +:+ b) = Some b.
Proof.
  induction a as [|c a IH]; [done|].
  rewrite contains_unfold, startswith_cons, startswith_nil, andb_true_r.
  intros [Hc Ha]%orb_false_iff.
  rewrite str_app_cons. change (Py.after_first_underscore (String c ?s))
    with (if Ascii.eqb c "_" then Some s else Py.after_first_underscore s).
  rewrite Ascii.eqb_sym, Hc. by apply IH.
Qed.

(** ** Attachment manager: promotion and lookup *)

(** C6 (amended).  An attachment stored under a local id and promoted to
    a remote id: its file and its sidecar are renamed to the remote-id
    prefix, the sidecar records [uploaded_to_api] and [synack_id] and keeps
    the local id under [id]; from then on the lookup by the remote id
    succeeds, and so does the lookup by the old local id, through the [id]
    of the sidecar. *)
Theorem promoted_attachment_lookup (f : fs) adir now local_id remote_id
  original_filename bytes (meta local_item api_item : dict) :
  let mdir := Py.path_join adir "metadata" in
  let filename := local_id +:+ "_" +:+ original_filename in
  let new_filename := remote_id +:+ "_" +:+ original_filename in
  stored_locally f adir local_id original_filename bytes meta local_item ->
  promotable f adir local_id remote_id original_filename ->
  api_item !! "id" = Some (JStr remote_id) ->
  exists f' local_item' meta',
    promote_item adir mdir now api_item local_item f = Some (f', local_item')
    /\ f' !! Py.path_join adir filename = None
    /\ f' !! Py.path_join mdir (filename +:+ ".json") = None
    /\ f' !! Py.path_join adir new_filename = Some (Regular (Raw bytes))
    /\ f' !! Py.path_join mdir (new_filename +:+ ".json")
         = Some (Regular (Json meta'))
    /\ meta' !! "uploaded_to_api" = Some (JBool true)
    /\ meta' !! "synack_id" = Some (JStr remote_id)
    /\ meta' !! "id" = Some (JStr local_id)
    /\ forall listing, is_listing f' adir listing ->
         lookup_succeeds f' adir mdir remote_id listing = true
         /\ lookup_succeeds f' adir mdir local_id listing = true.
Proof.
  intros mdir filename new_filename
    (Hfile & Hmeta & Hid & Hname & Hfp & Hmp)
    (Hremote & Hlocal & Hprefix & Hslash & Hslash' & Htemp & Hdir & Hdir') Hapi.
  fold mdir filename in Hfile, Hmeta, Hname, Hfp, Hmp.
  fold filename in Hprefix, Hslash. fold mdir new_filename in Hslash', Htemp, Hdir, Hdir'.
  set (fp := Py.path_join adir filename) in *.
  set (md := Py.path_join mdir (filename +:+ ".json")) in *.
  set (nfp := Py.path_join adir new_filename) in *.
  set (nmd := Py.path_join mdir (new_filename +:+ ".json")) in *.
  assert (Hne1 : fp <> md) by (by apply path_join_metadata).
  assert (Hne2 : nfp <> md) by (by apply path_join_metadata).
  assert (Hne3 : nfp <> nmd) by (by apply path_join_metadata).
  assert (Hne4 : fp <> nmd) by (by apply path_join_metadata).
  assert (Hne5 : fp <> nfp).
  { intros E. apply path_join_inj in E. rewrite E in Hprefix.
    unfold new_filename in Hprefix.
    by rewrite <- str_app_assoc, startswith_app in Hprefix. }
  assert (Hne6 : md <> nmd).
  { intros E. apply path_join_inj in E.
    apply Hne5. unfold fp, nfp. f_equal.
    assert (String.length filename = String.length new_filename) as Hlen.
    { apply (f_equal String.length) in E. rewrite !str_length_app in E. lia. }
    apply (f_equal (substring 0 (String.length filename))) in E.
    rewrite substring_prefix in E. rewrite Hlen in E.
    by rewrite substring_prefix in E. }
  set (meta1 := <["upload_api_time" := JStr now]>
                  (<["uploaded_to_api" := JBool true]>
                     (<["synack_id" := JStr remote_id]> meta))).
  set (meta2 := <["filename" := JStr new_filename]> meta1).
  set (f0 := json_dump md meta1 f).
  set (f1 := <[nfp := Regular (Raw bytes)]> (delete fp f0)).
  set (f2 := <[nmd := Regular (Json meta1)]> (delete md f1)).
  set (f3 := json_dump nmd meta2 f2).
  assert (Hr1 : rename fp nfp f0 = Some f1).
  { apply rename_ok; unfold f0, json_dump; by simplify_map_eq. }
  assert (Hr2 : rename md nmd f1 = Some f2).
  { apply rename_ok; unfold f1, f0, json_dump; by simplify_map_eq. }
  exists f3, (<["file_path" := JStr nfp]>
                (<["metadata_path" := JStr nmd]>
                   (<["filename" := JStr new_filename]> local_item))), meta2.
  split.
  { unfold promote_item, promote_try. rewrite Hapi; simpl.
    assert (Py.truthy remote_id = true) as -> by (by destruct remote_id).
    simpl. rewrite Hmp. unfold json_load. rewrite Hmeta, Hname.
    fold meta1 f0. rewrite Hprefix.
    assert (Py.after_first_underscore filename = Some original_filename)
      as -> by (by apply after_first_underscore_app).
    simpl.
    fold new_filename nfp nmd. rewrite Hfp, Hr1, Hr2. reflexivity. }
  assert (H3fp : f3 !! nfp = Some (Regular (Raw bytes))).
  { unfold f3, f2, f1, f0, json_dump. by simplify_map_eq. }
  assert (H3md : f3 !! nmd = Some (Regular (Json meta2))).
  { unfold f3, json_dump. by simplify_map_eq. }
  assert (H2id : meta2 !! "id" = Some (JStr local_id)).
  { unfold meta2, meta1. by simplify_map_eq. }
  repeat split.
  - unfold f3, f2, f1, f0, json_dump. by simplify_map_eq.
  - unfold f3, f2, f1, f0, json_dump. by simplify_map_eq.
  - exact H3fp.
  - exact H3md.
  - unfold meta2, meta1. by simplify_map_eq.
  - unfold meta2, meta1. by simplify_map_eq.
  - exact H2id.
  - apply (lookup_succeeds_intro f3 adir mdir remote_id listing new_filename);
      [done| |].
    + unfold is_listing in H. rewrite H. apply listdir_elem_of; [|done|by eauto].
      unfold new_filename. by destruct remote_id.
    + unfold check_file, isfile. fold nfp. rewrite H3fp, Htemp; simpl.
      unfold new_filename at 1. rewrite <- str_app_assoc, startswith_app. by eauto.
  - apply (lookup_succeeds_intro f3 adir mdir local_id listing new_filename);
      [done| |].
    + unfold is_listing in H. rewrite H. apply listdir_elem_of; [|done|by eauto].
      unfold new_filename. by destruct remote_id.
    + unfold check_file, isfile. fold nfp nmd. rewrite H3fp, Htemp; simpl.
      destruct (Py.startswith new_filename (local_id +:+ "_")); [by eauto|].
      destruct (String.eqb (Py.splitext_root new_filename) local_id);
        [by eauto|].
      unfold exists_, json_load. rewrite H3md.
      rewrite bool_decide_eq_true_2 by eauto.
      rewrite bool_decide_eq_true_2 by done. by eauto.
Qed.

Lemma promoted_attachment_lookup_witness :
  exists f' local_item' meta',
    promote_item Example.adir Example.mdir "2024-01-01T00:00:00"
      Example.api_item Example.local_item Example.disk = Some (f', local_item')
    /\ f' !! Py.path_join Example.adir "abc_shot.png" = None
    /\ f' !! Py.path_join Example.mdir "abc_shot.png.json" = None
    /\ f' !! Py.path_join Example.adir "XYZ_shot.png" = Some (Regular (Raw "PNG"))
    /\ f' !! Py.path_join Example.mdir "XYZ_shot.png.json"
         = Some (Regular (Json meta'))
    /\ meta' !! "uploaded_to_api" = Some (JBool true)
    /\ meta' !! "synack_id" = Some (JStr "XYZ")
    /\ meta' !! "id" = Some (JStr "abc")
    /\ forall listing, is_listing f' Example.adir listing ->
         lookup_succeeds f' Example.adir Example.mdir "XYZ" listing = true
         /\ lookup_succeeds f' Example.adir Example.mdir "abc" listing = true.
Proof.
  apply (promoted_attachment_lookup Example.disk Example.adir
           "2024-01-01T00:00:00" "abc" "XYZ" "shot.png" "PNG"
           Example.sidecar Example.local_item Example.api_item).
  - repeat split; vm_compute; reflexivity.
  - repeat split; vm_compute; congruence.
  - vm_compute; reflexivity.
Defined.

(** C6, counterexample.  The file [shot.png] is uploaded: it is stored
    under the local id [abc], accepted by the platform as [XYZ] and
    renamed.  The lookup by [abc] still ends on the renamed file, found
    through the [id] of its sidecar. *)
Lemma old_local_id_still_found :
  success Example.uploaded.1 = true
  /\ Example.uploaded.2 !! "uploads/LISTING/m1/abc_shot.png" = None
  /\ Example.uploaded.2 !! "uploads/LISTING/m1/XYZ_shot.png"
     = Some (Regular (Raw "PNG"))
  /\ find_attachment Example.uploaded.2 Example.adir Example.mdir "abc"
       (listdir Example.uploaded.2 Example.adir)
     = Some ("XYZ_shot.png", "uploads/LISTING/m1/metadata/XYZ_shot.png.json")
  /\ lookup_succeeds Example.uploaded.2 Example.adir Example.mdir "abc"
       (listdir Example.uploaded.2 Example.adir) = true.
Proof. vm_compute. repeat split; reflexivity. Qed.

(** ** Attachment manager: the batch upload *)

Section BatchFacts.

Variable secure_filename : string -> string.
Variable uuid4 : nat -> string.
Variable now : string.

Lemma save_locally_regular entry adir mdir title description files k
  (f : fs) ups p :
  (exists d, f !! p = Some (Regular d))
  \/ p ∈ batch_paths secure_filename uuid4 adir mdir files k ->
  exists d,
    (save_locally secure_filename uuid4 now entry adir mdir title description
       files k f ups).1 !! p = Some (Regular d).
Proof.
  revert k f ups. induction files as [|file files IH]; intros k f ups; simpl.
  - intros [H|H]; [done | by apply elem_of_nil in H].
  - destruct (Py.truthy (filename file)); [|by apply IH].
    intros H. apply IH. unfold json_dump.
    destruct H as [[d H]|H].
    + left. rewrite !lookup_insert. repeat case_decide; by eauto.
    + apply elem_of_cons in H as [->|H].
      { left. rewrite !lookup_insert. repeat case_decide; by eauto. }
      apply elem_of_cons in H as [->|H]; [|by right].
      left. rewrite lookup_insert_eq. by eauto.
Qed.

Lemma tracked_snoc ups u : tracked (ups ++ [u]) = tracked ups ++ entry_paths u.
Proof. unfold tracked. rewrite bind_app. simpl. by rewrite app_nil_r. Qed.

Lemma save_locally_tracked adir mdir title description files k (f : fs) ups :
  Forall has_paths ups ->
  let ups' := (save_locally secure_filename uuid4 now entry_with_paths adir mdir
                 title description files k f ups).2 in
  Forall has_paths ups'
  /\ tracked ups' =
       tracked ups ++ batch_paths secure_filename uuid4 adir mdir files k.
Proof.
  revert k f ups. induction files as [|file files IH]; intros k f ups Hups; simpl.
  - by rewrite app_nil_r.
  - destruct (Py.truthy (filename file)); [|by apply IH].
    match goal with |- context [ups ++ [?u]] => set (entry := u) end.
    assert (Hfp : dict_str entry "file_path" = Some
      (Py.path_join adir (uuid4 k +:+ "_" +:+ secure_filename (filename file)))).
    { unfold entry, entry_with_paths, dict_str. by simplify_map_eq. }
    assert (Hmp : dict_str entry "metadata_path" = Some
      (Py.path_join mdir
         ((uuid4 k +:+ "_" +:+ secure_filename (filename file)) +:+ ".json"))).
    { unfold entry, entry_with_paths, dict_str. by simplify_map_eq. }
    edestruct (IH (S k)) as [Hall Htr]; [|split; [exact Hall|rewrite Htr]].
    + apply Forall_app; split; [done|]. apply Forall_singleton.
      split; [rewrite Hfp | rewrite Hmp]; by eauto.
    + rewrite tracked_snoc. unfold entry_paths. rewrite Hfp, Hmp.
      by rewrite <- app_assoc.
Qed.

Lemma save_locally_grows entry adir mdir title description files k (f : fs) ups :
  length ups <=
  length (save_locally secure_filename uuid4 now entry adir mdir title
            description files k f ups).2.
Proof.
  revert k f ups. induction files as [|file files IH]; intros k f ups; simpl;
    [done|].
  destruct (Py.truthy (filename file)); [|by apply IH].
  etrans; [|apply IH]. rewrite length_app. simpl. lia.
Qed.

Lemma save_locally_nonempty entry adir mdir title description files k (f : fs) ups :
  existsb (fun file => Py.truthy (filename file)) files = true ->
  (save_locally secure_filename uuid4 now entry adir mdir title description
     files k f ups).2 <> [].
Proof.
  revert k f ups. induction files as [|file files IH]; intros k f ups; simpl;
    [done|].
  destruct (Py.truthy (filename file)); simpl; [|by apply IH].
  intros _ Hnil. apply (f_equal length) in Hnil.
  match type of Hnil with length (save_locally _ _ _ _ _ _ _ _ _ ?k' ?f' ?u').2 = _ =>
    pose proof (save_locally_grows entry adir mdir title description files k' f' u')
      as Hle
  end.
  rewrite Hnil, length_app in Hle. simpl in Hle. lia.
Qed.

Lemma save_locally_pathless adir mdir title description files k (f : fs)
  (ups : list dict) :
  Forall (fun u => u !! "file_path" = None) ups ->
  Forall (fun u => u !! "file_path" = None)
    (save_locally secure_filename uuid4 now entry_without_paths adir
       mdir title description files k f ups).2.
Proof.
  revert k f ups. induction files as [|file files IH]; intros k f ups Hups; simpl.
  - done.
  - destruct (Py.truthy (filename file)); simpl; [|by apply IH].
    apply IH. apply Forall_app; split; [done|]. apply Forall_singleton.
    unfold entry_without_paths. by simplify_map_eq.
Qed.

End BatchFacts.

(** The rollback, when every entry names its two paths and no directory
    stands at any of them: the paths are removed, nothing else changes. *)
Lemma rollback_one_delete (u : dict) (f : fs) file_path metadata_path :
  dict_str u "file_path" = Some file_path ->
  dict_str u "metadata_path" = Some metadata_path ->
  f !! file_path <> Some Directory ->
  f !! metadata_path <> Some Directory ->
  rollback_one u f = delete metadata_path (delete file_path f).
Proof.
  intros Hfp Hmp Hf Hm. unfold rollback_one. rewrite Hfp, Hmp.
  assert ((if exists_ f file_path then remove file_path f else Some f)
          = Some (delete file_path f)) as ->.
  { unfold exists_, remove. destruct (f !! file_path) as [[|d]|] eqn:E.
    - done.
    - rewrite bool_decide_eq_true_2 by eauto. done.
    - rewrite bool_decide_eq_false_2 by (by intros [? ?]).
      by rewrite delete_id. }
  assert (delete file_path f !! metadata_path <> Some Directory) as Hm'.
  { rewrite lookup_delete. case_decide; [done|]. done. }
  unfold exists_, remove.
  destruct (delete file_path f !! metadata_path) as [[|d]|] eqn:E.
  - done.
  - rewrite bool_decide_eq_true_2 by eauto. done.
  - rewrite bool_decide_eq_false_2 by (by intros [? ?]).
    symmetry. by apply delete_id.
Qed.

Lemma rollback_lookup ups (f : fs) p :
  Forall has_paths ups ->
  (forall q, q ∈ tracked ups -> f !! q <> Some Directory) ->
  rollback ups f !! p = if decide (p ∈ tracked ups) then None else f !! p.
Proof.
  revert f. induction ups as [|u ups IH]; intros f Hall Hdir.
  - destruct (decide (p ∈ tracked [])) as [H|H]; [|done].
    by apply elem_of_nil in H.
  - apply Forall_cons in Hall as [[[fp Hfp] [mp Hmp]] Hall].
    assert (Htr : tracked (u :: ups) = fp :: mp :: tracked ups).
    { unfold tracked; simpl. unfold entry_paths at 1. by rewrite Hfp, Hmp. }
    rewrite Htr in *.
    unfold rollback; simpl. fold (rollback ups (rollback_one u f)).
    rewrite (rollback_one_delete u f fp mp);
      [|done|done|apply Hdir; by left
       |apply Hdir; by apply list_elem_of_further, list_elem_of_here].
    rewrite IH; [|done|].
    + destruct (decide (p ∈ tracked ups)) as [Hin|Hnin].
      * rewrite decide_True; [done|]. by do 2 apply list_elem_of_further.
      * rewrite !lookup_delete.
        destruct (decide (p ∈ fp :: mp :: tracked ups)) as [H|H].
        -- apply elem_of_cons in H as [->|H].
           { repeat case_decide; done. }
           apply elem_of_cons in H as [->|H]; [|done].
           by rewrite decide_True.
        -- rewrite !decide_False; [done| |].
           ++ intros <-. apply H. by left.
           ++ intros <-. apply H. by apply list_elem_of_further, list_elem_of_here.
    + intros q Hq. rewrite !lookup_delete. repeat case_decide; try done.
      all: apply Hdir; by do 2 apply list_elem_of_further.
Qed.

Section EndpointFacts.

Variable secure_filename : string -> string.
Variable uuid4 : nat -> string.
Variable now upload_folder : string.
Variable token : option string.
Variable post : list (jval * string * jval) -> answer.

(** [upload_attachments] keeps the promise of the rollback: when it
    answers with the error of a failed remote upload, none of the files and
    sidecars of the batch is left. *)
Lemma upload_attachments_rolls_back mission_id m title description files
  (f : fs) r f' :
  upload_attachments secure_filename uuid4 now upload_folder token post
    mission_id m title description files f = (r, f') ->
  error_type r = Some "api_upload_failed" ->
  exists mid ms, mission_id = Some mid /\ m = Some ms /\
    let adir := Py.path_join (Py.path_join upload_folder
                                (default "unknown" (listingCodename ms))) mid in
    forall p,
      p ∈ batch_paths secure_filename uuid4 adir (Py.path_join adir "metadata")
            files 0 ->
      f' !! p = None.
Proof.
  unfold upload_attachments.
  destruct mission_id as [[|c mid]|]; [by intros [= <- <-]| |by intros [= <- <-]].
  destruct m as [ms|]; [|by intros [= <- <-]].
  intros Hrun Herr. exists (String c mid), ms. split; [done|]. split; [done|].
  cbv zeta. intros p Hp. revert Hrun. unfold handle_upload.
  set (adir := Py.path_join (Py.path_join upload_folder _) _) in *.
  set (mdir := Py.path_join adir "metadata") in *.
  destruct (negb (existsb _ files)); [intros [= <- <-]; done|].
  destruct (save_locally _ _ _ _ _ _ _ _ _ _ _ _) as [f2 ups] eqn:Hsave.
  pose proof (save_locally_tracked secure_filename uuid4 now adir mdir title
                description files 0 (makedirs mdir (makedirs adir f)) []
                (Forall_nil_2 _)) as [Hall Htr].
  rewrite Hsave in Hall, Htr. simpl in Hall, Htr.
  destruct (upload_multiple_attachments_to_api f2 token post ups ms)
    as [[[|] msg] api_results].
  { repeat case_match; intros [= <- <-]; done. }
  intros [= <- <-].
  rewrite rollback_lookup; [by rewrite Htr, decide_True| done |].
  intros q Hq. rewrite Htr in Hq.
  destruct (save_locally_regular secure_filename uuid4 now entry_with_paths
              adir mdir title description files 0
              (makedirs mdir (makedirs adir f)) [] q (or_intror Hq)) as [d Hd].
  rewrite Hsave in Hd. simpl in Hd. by rewrite Hd.
Qed.

Lemma pathless_upload_fails (f : fs) (ups : list dict) ms :
  ups <> [] -> Forall (fun u => u !! "file_path" = None) ups ->
  exists msg res,
    upload_multiple_attachments_to_api f token post ups ms = (false, msg, res).
Proof.
  intros Hne Hall. unfold upload_multiple_attachments_to_api.
  destruct (negb (Py.truthy _)); [by eauto|].
  destruct (negb (all_truthy _)); [by eauto|].
  destruct ups as [|u ups]; [done|].
  apply Forall_cons in Hall as [Hu _]. simpl.
  unfold item. rewrite Hu. by eauto.
Qed.

Lemma pathless_rollback (ups : list dict) (f : fs) :
  Forall (fun u => u !! "file_path" = None) ups -> rollback ups f = f.
Proof.
  revert f. induction ups as [|u ups IH]; intros f Hall; [done|].
  apply Forall_cons in Hall as [Hu Hall].
  unfold rollback; simpl. fold (rollback ups (rollback_one u f)).
  unfold rollback_one, dict_str. rewrite Hu. by apply IH.
Qed.

(** [upload_single_attachment] does not: its entries carry no
    ['file_path'], so the combined upload fails on the first of them, the
    rollback passes over every entry, and the whole batch stays. *)
Lemma upload_single_attachment_keeps_batch mission_id ms title description
  files (f : fs) :
  existsb (fun file => Py.truthy (filename file)) files = true ->
  let out := upload_single_attachment secure_filename uuid4 now upload_folder
               token post mission_id (Some ms) title description files f in
  let adir := Py.path_join (Py.path_join upload_folder
                              (default "unknown" (listingCodename ms)))
                mission_id in
  error_type out.1 = Some "api_upload_failed"
  /\ forall p,
       p ∈ batch_paths secure_filename uuid4 adir (Py.path_join adir "metadata")
             files 0 ->
       exists d, out.2 !! p = Some (Regular d).
Proof.
  intros Hfiles. cbv zeta. unfold upload_single_attachment, handle_upload.
  set (adir := Py.path_join (Py.path_join upload_folder _) _) in *.
  set (mdir := Py.path_join adir "metadata") in *.
  rewrite Hfiles; simpl negb; cbv iota.
  pose proof (save_locally_regular secure_filename uuid4 now entry_without_paths
                adir mdir title description files 0
                (makedirs mdir (makedirs adir f)) []) as Hreg.
  pose proof (save_locally_nonempty secure_filename uuid4 now entry_without_paths
                adir mdir title description files 0
                (makedirs mdir (makedirs adir f)) [] Hfiles) as Hne.
  pose proof (save_locally_pathless secure_filename uuid4 now adir mdir title
                description files 0 (makedirs mdir (makedirs adir f)) []
                (Forall_nil_2 _)) as Hall.
  destruct (save_locally _ _ _ _ _ _ _ _ _ _ _ _) as [f2 ups].
  simpl in Hreg, Hne, Hall.
  destruct (pathless_upload_fails f2 ups ms Hne Hall) as (msg & res & ->).
  simpl. split; [done|]. intros p Hp.
  rewrite pathless_rollback by done. apply Hreg. by right.
Qed.

End EndpointFacts.

(** C2, at the failing input.  One file sent to the single-attachment
    endpoint while the platform refuses uploads: the endpoint answers 500
    with the error of a failed remote upload, and the file and its sidecar
    are still there. *)
Theorem single_upload_leaves_batch :
  http_status Example.single_upload.1 = 500%Z
  /\ success Example.single_upload.1 = false
  /\ error_type Example.single_upload.1 = Some "api_upload_failed"
  /\ message Example.single_upload.1 =
       "Failed to upload files to Synack API: Error uploading to API: 'file_path'"
  /\ Example.single_upload.2 !! "uploads/LISTING/m1/abc_shot.png"
       = Some (Regular (Raw "PNG"))
  /\ is_Some (Example.single_upload.2
                !! "uploads/LISTING/m1/metadata/abc_shot.png.json").
Proof. vm_compute. repeat split; try reflexivity. by eexists. Qed.

(** The same batch sent to [upload_attachments] leaves nothing behind. *)
Lemma batch_upload_leaves_nothing :
  let out := upload_attachments (fun name => name) (fun _ => "abc")
               "2024-01-01T00:00:00" "uploads" (Some "token") Example.refused
               (Some "m1") (Some Example.the_mission) "" ""
               [Upload "shot.png" "PNG" (Some "image/png")] ∅ in
  error_type out.1 = Some "api_upload_failed"
  /\ out.2 !! "uploads/LISTING/m1/abc_shot.png" = None
  /\ out.2 !! "uploads/LISTING/m1/metadata/abc_shot.png.json" = None.
Proof. vm_compute. repeat split; reflexivity. Qed.

(** ** Template codec: the parser reads the sections of the text *)

Lemma substring_nil_len n s : substring n 0 s = "".
Proof. revert n; induction s as [|c s IH]; intros [|n]; simpl; auto. Qed.

Lemma substring_app_l n m h t :
  n + m <= String.length h -> substring n m (h +:+ t) = substring n m h.
Proof.
  revert n m. induction h as [|c h IH]; intros n m Hle; simpl in Hle.
  - assert (n = 0) as -> by lia. assert (m = 0) as -> by lia.
    simpl. by rewrite substring_nil_len.
  - rewrite str_app_cons. destruct n as [|n]; simpl.
    + destruct m as [|m]; [done|]. f_equal. apply IH. lia.
    + apply IH. lia.
Qed.

Lemma substring_app_skip_n a b n m :
  substring (String.length a + n) m (a +:+ b) = substring n m b.
Proof. induction a as [|x a IH]; [done|]. rewrite str_app_cons. simpl. apply IH. Qed.

(** Where the head of [segments] stops is where the first match starts. *)
Lemma finditer_head s pos bol :
  (exists t, s = (segments bol s).1 +:+ t)
  /\ match finditer_from pos bol s with
     | m :: _ => m_start m = pos + String.length (segments bol s).1
     | [] => (segments bol s).1 = s
     end.
Proof.
  revert pos bol. induction s as [|c s IH]; intros pos bol.
  - simpl. split; [by exists ""|done].
  - simpl. destruct (IH (S pos) (Ascii.eqb c Py.LF)) as [[t Ht] Hm].
    destruct (segments (Ascii.eqb c Py.LF) s) as [h segs]; simpl in *.
    destruct (if bol then match_tag (String c s) else None) as [n|]; simpl.
    + split; [by exists (String c s)|lia].
    + split; [exists t; by rewrite str_app_cons, <- Ht|].
      destruct (finditer_from (S pos) (Ascii.eqb c Py.LF) s) as [|m ms];
        [by f_equal | lia].
Qed.

Lemma parse_loop_segments s pre bol secs :
  parse_loop (pre +:+ s) (finditer_from (String.length pre) bol s) secs
  = fold_left store_segment (segments bol s).2 secs.
Proof.
  revert pre bol secs. induction s as [|c s IH]; intros pre bol secs; [done|].
  assert (Hpre : pre +:+ String c s = (pre +:+ String c "") +:+ s)
    by (by rewrite str_app_assoc).
  assert (Hlen : S (String.length pre) = String.length (pre +:+ String c ""))
    by (rewrite str_length_app; simpl; lia).
  specialize (IH (pre +:+ String c "") (Ascii.eqb c Py.LF)).
  rewrite <- Hpre, <- Hlen in IH.
  destruct (finditer_head s (S (String.length pre)) (Ascii.eqb c Py.LF))
    as [[t Ht] Hstop].
  simpl. destruct (segments (Ascii.eqb c Py.LF) s) as [h segs]; simpl in *.
  destruct (if bol then match_tag (String c s) else None) as [n|]; simpl;
    [|apply IH].
  rewrite <- IH. f_equal. unfold store_segment; simpl. f_equal. f_equal.
  unfold after_tag, Py.slice. simpl String.length.
  set (stop := match finditer_from (S (String.length pre)) (Ascii.eqb c Py.LF) s with
               | [] => String.length (pre +:+ String c s)
               | m' :: _ => m_start m'
               end).
  assert (Hs : stop = S (String.length pre) + String.length h).
  { unfold stop.
    destruct (finditer_from (S (String.length pre)) (Ascii.eqb c Py.LF) s);
      [|done].
    rewrite str_length_app; simpl. rewrite Hstop. lia. }
  rewrite Hs.
  replace (String.length pre + String.length n + 2)
    with (String.length pre + (String.length n + 2)) by lia.
  rewrite substring_app_skip_n.
  replace (S (String.length pre) + String.length h
           - (String.length pre + (String.length n + 2)))
    with (S (String.length h) - (String.length n + 2)) by lia.
  rewrite Ht at 1. rewrite <- str_app_cons.
  destruct (decide (String.length n + 2 <= S (String.length h))) as [Hle|Hgt].
  - apply substring_app_l. simpl. lia.
  - replace (S (String.length h) - (String.length n + 2)) with 0 by lia.
    by rewrite !substring_nil_len.
Qed.

(** The parser stores, in their order, the sections of the text. *)
Lemma parse_template_segments s :
  parse_template s = fold_left store_segment (segments true s).2 no_sections.
Proof. apply (parse_loop_segments s "" true). Qed.

(** ** Template codec: tags and line feeds *)

Lemma find_ext_In {A} (f g : A -> bool) (l : list A) :
  (forall x, In x l -> f x = g x) -> List.find f l = List.find g l.
Proof.
  induction l as [|x l IH]; intros H; simpl; [done|].
  rewrite <- (H x) by (by left). destruct (f x); [done|].
  apply IH. intros y Hy. apply H. by right.
Qed.

Lemma section_names_single_line n :
  In n section_names -> single_line ("[" +:+ n +:+ "]") = true.
Proof. intros H. simpl in H. repeat destruct H as [<-|H]; done. Qed.

Lemma match_tag_Some s n :
  match_tag s = Some n ->
  In n section_names /\ Py.startswith s ("[" +:+ n +:+ "]") = true.
Proof. intros H. by apply List.find_some in H. Qed.

Lemma match_tag_None s n :
  match_tag s = None -> In n section_names ->
  Py.startswith s ("[" +:+ n +:+ "]") = false.
Proof. intros H Hn. by apply (List.find_none _ _ H n). Qed.

(** A pattern without line feed does not see past a line feed. *)
Lemma startswith_nl u y p :
  single_line p = true ->
  Py.startswith (u +:+ Py.nl +:+ y) p = Py.startswith u p.
Proof.
  revert u. induction p as [|a p IH]; intros u Hp; [by rewrite !startswith_nil|].
  simpl in Hp. apply andb_true_iff in Hp as [Ha Hp].
  destruct u as [|b u].
  - change ("" +:+ Py.nl +:+ y) with (String Py.LF y).
    rewrite startswith_cons. by destruct (Ascii.eqb a Py.LF).
  - rewrite str_app_cons, !startswith_cons. by rewrite IH.
Qed.

Lemma match_tag_nl u y : match_tag (u +:+ Py.nl +:+ y) = match_tag u.
Proof.
  unfold match_tag. apply find_ext_In. intros n Hn.
  apply startswith_nl. by apply section_names_single_line.
Qed.

Lemma match_tag_LF y : match_tag (String Py.LF y) = None.
Proof. reflexivity. Qed.

Lemma tag_free_cons bol c s :
  tag_free bol (String c s)
  = negb (bol && bool_decide (is_Some (match_tag (String c s))))
    && tag_free (Ascii.eqb c Py.LF) s.
Proof. reflexivity. Qed.

Lemma segments_cons bol c s :
  segments bol (String c s)
  = match (if bol then match_tag (String c s) else None) with
    | Some n =>
        ("", (n, String c (segments (Ascii.eqb c Py.LF) s).1)
               :: (segments (Ascii.eqb c Py.LF) s).2)
    | None =>
        (String c (segments (Ascii.eqb c Py.LF) s).1,
         (segments (Ascii.eqb c Py.LF) s).2)
    end.
Proof. simpl. by destruct (segments (Ascii.eqb c Py.LF) s). Qed.

Lemma tag_free_nl bol x y :
  tag_free bol (x +:+ Py.nl +:+ y) = tag_free bol x && tag_free true y.
Proof.
  revert bol. induction x as [|c x IH]; intros bol.
  - change ("" +:+ Py.nl +:+ y) with (String Py.LF y).
    rewrite tag_free_cons, match_tag_LF.
    rewrite bool_decide_eq_false_2 by (by intros [? ?]).
    by rewrite andb_false_r.
  - rewrite str_app_cons, !tag_free_cons, IH.
    rewrite <- str_app_cons, match_tag_nl. by rewrite andb_assoc.
Qed.

Lemma segments_nl bol x y :
  tag_free bol x = true ->
  segments bol (x +:+ Py.nl +:+ y)
  = (x +:+ Py.nl +:+ (segments true y).1, (segments true y).2).
Proof.
  revert bol. induction x as [|c x IH]; intros bol Hx.
  - change ("" +:+ Py.nl +:+ y) with (String Py.LF y).
    rewrite segments_cons, match_tag_LF. by destruct bol.
  - rewrite tag_free_cons in Hx. apply andb_true_iff in Hx as [Hc Hx].
    rewrite str_app_cons, segments_cons, (IH _ Hx); simpl.
    rewrite <- str_app_cons, match_tag_nl.
    destruct bol; [|done].
    destruct (match_tag (String c x)); [|done].
    rewrite bool_decide_eq_true_2 in Hc by eauto. done.
Qed.

Lemma segments_free bol x : tag_free bol x = true -> segments bol x = (x, []).
Proof.
  revert bol. induction x as [|c x IH]; intros bol Hx; [done|].
  rewrite tag_free_cons in Hx. apply andb_true_iff in Hx as [Hc Hx].
  rewrite segments_cons, (IH _ Hx); simpl.
  destruct bol; [|done].
  destruct (match_tag (String c x)); [|done].
  rewrite bool_decide_eq_true_2 in Hc by eauto. done.
Qed.

Lemma segments_skip w y :
  single_line w = true ->
  segments false (w +:+ y) = (w +:+ (segments false y).1, (segments false y).2).
Proof.
  induction w as [|c w IH]; intros Hw;
    [rewrite !str_app_nil_l; by destruct (segments false y)|].
  simpl in Hw. apply andb_true_iff in Hw as [Hc Hw].
  rewrite str_app_cons, segments_cons.
  apply negb_true_iff in Hc. rewrite Hc, (IH Hw). done.
Qed.

Lemma tag_free_skip w y :
  single_line w = true -> tag_free false (w +:+ y) = tag_free false y.
Proof.
  induction w as [|c w IH]; intros Hw; [by rewrite str_app_nil_l|].
  simpl in Hw. apply andb_true_iff in Hw as [Hc Hw].
  rewrite str_app_cons, tag_free_cons.
  apply negb_true_iff in Hc. rewrite Hc, (IH Hw). done.
Qed.

Lemma match_tag_here n y :
  In n section_names -> match_tag ("[" +:+ n +:+ "]" +:+ y) = Some n.
Proof.
  intros H. simpl in H.
  repeat destruct H as [<-|H]; try done; vm_compute; by destruct y.
Qed.

(** A tag at a line start opens a segment. *)
Lemma segments_tag n y :
  In n section_names ->
  segments true ("[" +:+ n +:+ "]" +:+ y)
  = ("", (n, "[" +:+ n +:+ "]" +:+ (segments false y).1)
           :: (segments false y).2).
Proof.
  intros Hn.
  change ("[" +:+ n +:+ "]" +:+ y) with (String "[" (n +:+ "]" +:+ y)).
  rewrite segments_cons.
  change (String "[" (n +:+ "]" +:+ y)) with ("[" +:+ n +:+ "]" +:+ y).
  rewrite (match_tag_here n y Hn).
  change (Ascii.eqb "[" Py.LF) with false.
  rewrite <- (str_app_assoc n "]" y), segments_skip.
  - simpl. by rewrite str_app_assoc.
  - apply section_names_single_line in Hn.
    change ("[" +:+ n +:+ "]") with (String "[" (n +:+ "]")) in Hn.
    simpl in Hn. done.
Qed.

Lemma after_tag_here n y : after_tag n ("[" +:+ n +:+ "]" +:+ y) = y.
Proof.
  unfold after_tag, Py.slice.
  rewrite <- !str_app_assoc.
  replace (String.length n + 2) with (String.length (("[" +:+ n) +:+ "]") + 0)
    by (rewrite !str_length_app; simpl; lia).
  rewrite substring_app_skip_n, str_length_app.
  replace (String.length (("[" +:+ n) +:+ "]") + String.length y
           - (String.length (("[" +:+ n) +:+ "]") + 0))
    with (String.length y) by lia.
  apply substring_0_length.
Qed.

(** ** Strings: trimming *)

Lemma rstrip_cons c s :
  Py.rstrip (String c s)
  = match Py.rstrip s with
    | "" => if Py.is_space c then "" else String c ""
    | r => String c r
    end.
Proof. reflexivity. Qed.

Lemma lstrip_cons c s :
  Py.lstrip (String c s) = if Py.is_space c then Py.lstrip s else String c s.
Proof. reflexivity. Qed.

Lemma rstrip_solid s : solid s -> solid (Py.rstrip s).
Proof.
  intros (c & s' & -> & Hc). rewrite rstrip_cons, Hc.
  destruct (Py.rstrip s'); by repeat eexists.
Qed.

Lemma rstrip_app_solid a b :
  solid b -> Py.rstrip (a +:+ b) = a +:+ Py.rstrip b.
Proof.
  intros Hb. induction a as [|x a IH]; [done|].
  rewrite !str_app_cons, rstrip_cons, IH.
  destruct (rstrip_solid b Hb) as (c & r & -> & _).
  by destruct a.
Qed.

Lemma rstrip_blank w : blank w = true -> Py.rstrip w = "".
Proof.
  induction w as [|c w IH]; [done|]. simpl blank.
  intros [Hc Hw]%andb_true_iff. by rewrite rstrip_cons, IH, Hc.
Qed.

Lemma lstrip_blank w : blank w = true -> Py.lstrip w = "".
Proof.
  induction w as [|c w IH]; [done|]. simpl blank.
  intros [Hc Hw]%andb_true_iff. by rewrite lstrip_cons, Hc, IH.
Qed.

Lemma rstrip_app_blank x w : blank w = true -> Py.rstrip (x +:+ w) = Py.rstrip x.
Proof.
  intros Hw. induction x as [|c x IH]; [by apply rstrip_blank|].
  by rewrite str_app_cons, !rstrip_cons, IH.
Qed.

Lemma lstrip_blank_app w x : blank w = true -> Py.lstrip (w +:+ x) = Py.lstrip x.
Proof.
  induction w as [|c w IH]; [done|]. simpl blank.
  intros [Hc Hw]%andb_true_iff. by rewrite str_app_cons, lstrip_cons, Hc, IH.
Qed.

Lemma rstrip_decomp z : exists w, blank w = true /\ z = Py.rstrip z +:+ w.
Proof.
  induction z as [|c z (w & Hw & IH)]; [by exists ""|].
  rewrite rstrip_cons. destruct (Py.rstrip z) as [|d r] eqn:E.
  - destruct (Py.is_space c) eqn:Hc.
    + exists (String c w). split; [simpl; by rewrite Hc|]. by rewrite IH.
    + exists w. split; [done|]. by rewrite IH.
  - exists w. split; [done|]. by rewrite IH at 1.
Qed.

Lemma lstrip_app_blank x w :
  blank w = true ->
  exists w', blank w' = true /\ Py.lstrip (x +:+ w) = Py.lstrip x +:+ w'.
Proof.
  intros Hw. induction x as [|c x (w' & Hw' & IH)].
  - exists "". split; [done|]. by rewrite str_app_nil_l, lstrip_blank.
  - rewrite str_app_cons, !lstrip_cons. destruct (Py.is_space c).
    + by exists w'.
    + by exists w.
Qed.

Lemma strip_app_blank x w : blank w = true -> Py.strip (x +:+ w) = Py.strip x.
Proof.
  intros Hw. unfold Py.strip.
  destruct (lstrip_app_blank x w Hw) as (w' & Hw' & ->).
  by apply rstrip_app_blank.
Qed.

Lemma strip_blank_app w x : blank w = true -> Py.strip (w +:+ x) = Py.strip x.
Proof. intros Hw. unfold Py.strip. by rewrite lstrip_blank_app. Qed.

Lemma strip_rstrip z : Py.strip (Py.rstrip z) = Py.strip z.
Proof.
  destruct (rstrip_decomp z) as (w & Hw & Hz).
  rewrite Hz at 2. by rewrite strip_app_blank.
Qed.

Lemma rstrip_idem z : Py.rstrip (Py.rstrip z) = Py.rstrip z.
Proof.
  induction z as [|c z IH]; [done|].
  rewrite rstrip_cons. destruct (Py.rstrip z) as [|d r] eqn:E.
  - destruct (Py.is_space c) eqn:Hc; [done|]. by rewrite rstrip_cons, Hc.
  - by rewrite rstrip_cons, IH.
Qed.

Lemma lstrip_solid_or_nil s : Py.lstrip s = "" \/ solid (Py.lstrip s).
Proof.
  induction s as [|c s IH]; [by left|].
  rewrite lstrip_cons. destruct (Py.is_space c) eqn:Hc; [done|].
  right. by repeat eexists.
Qed.

Lemma lstrip_of_solid s : solid s -> Py.lstrip s = s.
Proof. intros (c & s' & -> & Hc). by rewrite lstrip_cons, Hc. Qed.

Lemma strip_idem x : Py.strip (Py.strip x) = Py.strip x.
Proof.
  unfold Py.strip. destruct (lstrip_solid_or_nil x) as [->|Hs]; [done|].
  rewrite (lstrip_of_solid (Py.rstrip _)) by (by apply rstrip_solid).
  apply rstrip_idem.
Qed.

Lemma strip_nl_around c :
  Py.strip (Py.nl +:+ c +:+ Py.nl +:+ Py.nl) = Py.strip c.
Proof.
  rewrite strip_blank_app by done.
  by rewrite (strip_app_blank c (Py.nl +:+ Py.nl)).
Qed.

(** ** Template codec: parsing what the serializer writes *)

Lemma startswith_app_mono u b p :
  Py.startswith u p = true -> Py.startswith (u +:+ b) p = true.
Proof.
  intros (r & ->)%startswith_inv. rewrite str_app_assoc. apply startswith_app.
Qed.

Lemma match_tag_app u b :
  is_Some (match_tag u) -> is_Some (match_tag (u +:+ b)).
Proof.
  intros [n (Hn & Hs)%match_tag_Some].
  destruct (match_tag (u +:+ b)) eqn:E; [by eauto|].
  pose proof (match_tag_None _ n E Hn) as Hf.
  by rewrite (startswith_app_mono u b _ Hs) in Hf.
Qed.

Lemma tag_free_prefix bol a b :
  tag_free bol (a +:+ b) = true -> tag_free bol a = true.
Proof.
  revert bol. induction a as [|c a IH]; intros bol; [done|].
  rewrite str_app_cons, !tag_free_cons.
  intros [Hc Ha]%andb_true_iff. apply andb_true_iff. split; [|by eapply IH].
  destruct bol; [|done]. simpl in *.
  apply negb_true_iff, bool_decide_eq_false in Hc.
  apply negb_true_iff, bool_decide_eq_false. intros H. apply Hc.
  rewrite <- str_app_cons. by apply match_tag_app.
Qed.

Lemma tag_free_rstrip bol z :
  tag_free bol z = true -> tag_free bol (Py.rstrip z) = true.
Proof.
  destruct (rstrip_decomp z) as (w & _ & Hz). rewrite Hz at 1.
  apply tag_free_prefix.
Qed.

Lemma tag_free_false_nl y : tag_free false (Py.nl +:+ y) = tag_free true y.
Proof. reflexivity. Qed.

Lemma block_assoc K c rest :
  block K c +:+ rest
  = "[" +:+ K +:+ "]" +:+ Py.nl +:+ c +:+ Py.nl +:+ Py.nl +:+ rest.
Proof. unfold block. by rewrite !str_app_assoc. Qed.

Lemma segments_block K c rest :
  In K section_names -> tag_free true c = true ->
  segments true (block K c +:+ rest)
  = ("", (K, "[" +:+ K +:+ "]" +:+ Py.nl +:+ c +:+ Py.nl +:+ Py.nl
               +:+ (segments true rest).1)
           :: (segments true rest).2).
Proof.
  intros HK Hc. rewrite block_assoc, (segments_tag K _ HK).
  rewrite <- (str_app_nil_l (Py.nl +:+ c +:+ _)), (segments_nl false "") by done.
  rewrite (segments_nl true c) by done. cbn [fst snd].
  rewrite <- (str_app_nil_l (Py.nl +:+ rest)), (segments_nl true "") by done.
  reflexivity.
Qed.

Lemma fold_block K c rest secs :
  In K section_names -> tag_free true c = true ->
  (segments true rest).1 = "" ->
  fold_left store_segment (segments true (block K c +:+ rest)).2 secs
  = fold_left store_segment (segments true rest).2
      (store_section (Py.lower K) (Py.strip c) secs).
Proof.
  intros HK Hc Hrest. rewrite segments_block by done. cbn [fst snd fold_left].
  unfold store_segment at 2; cbn [fst snd]. rewrite after_tag_here, Hrest.
  by rewrite str_app_nil_r, strip_nl_around.
Qed.

Lemma segments_block_head K c rest :
  In K section_names -> tag_free true c = true ->
  (segments true (block K c +:+ rest)).1 = "".
Proof. intros HK Hc. by rewrite segments_block. Qed.

Lemma fold_last K z secs :
  In K section_names -> tag_free false z = true ->
  fold_left store_segment (segments true ("[" +:+ K +:+ "]" +:+ z)).2 secs
  = store_section (Py.lower K) (Py.strip z) secs.
Proof.
  intros HK Hz. rewrite (segments_tag K _ HK), (segments_free false z Hz).
  cbn [fst snd fold_left]. unfold store_segment; cbn [fst snd].
  by rewrite after_tag_here.
Qed.

Lemma segments_last_head K z :
  In K section_names -> (segments true ("[" +:+ K +:+ "]" +:+ z)).1 = "".
Proof. intros HK. by rewrite (segments_tag K _ HK). Qed.

Lemma solid_tag K y : solid ("[" +:+ K +:+ y).
Proof. by exists "["%char, (K +:+ y). Qed.

Lemma solid_block K c rest : solid (block K c +:+ rest).
Proof. rewrite block_assoc. apply solid_tag. Qed.

Lemma rstrip_tag K tail :
  Py.rstrip ("[" +:+ K +:+ "]" +:+ tail) = "[" +:+ K +:+ "]" +:+ Py.rstrip tail.
Proof.
  rewrite <- (str_app_assoc "[" K), rstrip_app_solid, str_app_assoc.
  - f_equal. f_equal. change ("]" +:+ tail) with (String "]" tail).
    rewrite rstrip_cons. by destruct (Py.rstrip tail).
  - by exists "]"%char, tail.
Qed.

Lemma rstrip_block K c rest :
  solid rest -> Py.rstrip (block K c +:+ rest) = block K c +:+ Py.rstrip rest.
Proof. apply rstrip_app_solid. Qed.

Lemma rstrip_last_block K c :
  Py.rstrip (block K c)
  = "[" +:+ K +:+ "]" +:+ Py.rstrip (Py.nl +:+ c +:+ Py.nl +:+ Py.nl).
Proof. unfold block. apply rstrip_tag. Qed.

Lemma serialize_unfold secs :
  serialize secs
  = Py.strip
      (block "Introduction" (default "" (texts secs !! "introduction"))
       +:+ block "Testing" (default "" (texts secs !! "testing"))
       +:+ block "Documentation" (default "" (texts secs !! "documentation"))
       +:+ block "conclusion-pass" (default "" (texts secs !! "conclusion-pass"))
       +:+ block "conclusion-fail" (default "" (texts secs !! "conclusion-fail"))
       +:+ scripts_text (scripts secs)).
Proof.
  unfold serialize, emit_scripts, scripts_text, emitted_keys.
  cbn [fold_left]. unfold emit_section, block.
  change (Py.lower "Introduction") with "introduction".
  change (Py.lower "Testing") with "testing".
  change (Py.lower "Documentation") with "documentation".
  change (Py.lower "conclusion-pass") with "conclusion-pass".
  change (Py.lower "conclusion-fail") with "conclusion-fail".
  destruct (scripts secs) as [[|e l]|];
    rewrite ?str_app_nil_r, ?str_app_nil_l, !str_app_assoc; reflexivity.
Qed.

Lemma solid_block_alone K c : solid (block K c).
Proof. unfold block. apply solid_tag. Qed.

Lemma strip_solid s : solid s -> Py.strip s = Py.rstrip s.
Proof. intros H. unfold Py.strip. by rewrite lstrip_of_solid. Qed.

Lemma tag_free_tail c :
  tag_free true c = true ->
  tag_free false (Py.rstrip (Py.nl +:+ c +:+ Py.nl +:+ Py.nl)) = true.
Proof.
  intros Hc. apply tag_free_rstrip.
  by rewrite tag_free_false_nl, tag_free_nl, Hc.
Qed.

Lemma tag_free_scripts_tail J :
  tag_free true J = true ->
  tag_free false (Py.rstrip (Py.nl +:+ J +:+ Py.nl)) = true.
Proof.
  intros HJ. apply tag_free_rstrip.
  rewrite tag_free_false_nl, <- (str_app_nil_r Py.nl), tag_free_nl, HJ. done.
Qed.

Lemma strip_tail c :
  Py.strip (Py.rstrip (Py.nl +:+ c +:+ Py.nl +:+ Py.nl)) = Py.strip c.
Proof. by rewrite strip_rstrip, strip_nl_around. Qed.

Lemma strip_scripts_tail J :
  Py.strip (Py.rstrip (Py.nl +:+ J +:+ Py.nl)) = Py.strip J.
Proof.
  rewrite strip_rstrip, strip_blank_app by done. by apply strip_app_blank.
Qed.

Lemma In_section_names :
  In "Introduction" section_names /\ In "Testing" section_names
  /\ In "Documentation" section_names /\ In "conclusion-pass" section_names
  /\ In "conclusion-fail" section_names /\ In "Scripts" section_names.
Proof. simpl. tauto. Qed.

(** What the parser reads from the text the serializer writes, when the
    contents hold no recognized tag at a line start. *)
Lemma parse_serialize secs :
  let c k := default "" (texts secs !! k) in
  tag_free true (c "introduction") = true ->
  tag_free true (c "testing") = true ->
  tag_free true (c "documentation") = true ->
  tag_free true (c "conclusion-pass") = true ->
  tag_free true (c "conclusion-fail") = true ->
  tag_free true (Py.join_nl (default [] (scripts secs))) = true ->
  parse_template (serialize secs)
  = Sections
      (<["conclusion-fail" := Py.strip (c "conclusion-fail")]>
         (<["conclusion-pass" := Py.strip (c "conclusion-pass")]>
            (<["documentation" := Py.strip (c "documentation")]>
               (<["testing" := Py.strip (c "testing")]>
                  (<["introduction" := Py.strip (c "introduction")]> ∅)))))
      match scripts secs with
      | None | Some [] => None
      | Some l => Some (script_lines (Py.strip (Py.join_nl l)))
      end.
Proof.
  intros c H1 H2 H3 H4 H5 HJ.
  destruct In_section_names as (K1 & K2 & K3 & K4 & K5 & K6).
  rewrite serialize_unfold, parse_template_segments. fold (c "introduction")
    (c "testing") (c "documentation") (c "conclusion-pass") (c "conclusion-fail").
  rewrite strip_solid by apply solid_block.
  assert (Hscripts :
    scripts_text (scripts secs) = ""
    /\ match scripts secs with None | Some [] => True | _ => False end
    \/ exists e l, scripts secs = Some (e :: l)
       /\ scripts_text (scripts secs)
          = "[" +:+ "Scripts" +:+ "]" +:+ Py.nl +:+ Py.join_nl (e :: l) +:+ Py.nl).
  { destruct (scripts secs) as [[|e l]|]; [by left| |by left].
    right. by exists e, l. }
  destruct Hscripts as [[-> Hs]|(e & l & Hs & ->)].
  - rewrite str_app_nil_r.
    rewrite !rstrip_block by first [apply solid_block | apply solid_block_alone].
    rewrite rstrip_last_block.
    rewrite !fold_block;
      try done; try (by apply segments_block_head); try (by apply segments_last_head).
    rewrite fold_last by (try done; by apply tag_free_tail).
    rewrite strip_tail.
    destruct (scripts secs) as [[|? ?]|]; done.
  - rewrite Hs in HJ. simpl default in HJ.
    rewrite !rstrip_block by first [apply solid_block | apply solid_tag].
    rewrite rstrip_tag.
    rewrite !fold_block;
      try done; try (by apply segments_block_head); try (by apply segments_last_head).
    rewrite fold_last by (try done; by apply tag_free_scripts_tail).
    rewrite strip_scripts_tail, Hs. reflexivity.
Qed.

(** ** Template codec: what the parser stores *)

Lemma segments_names bol s seg :
  In seg (segments bol s).2 -> In seg.1 section_names.
Proof.
  revert bol. induction s as [|c s IH]; intros bol; [done|].
  rewrite segments_cons.
  destruct (if bol then match_tag (String c s) else None) as [n|] eqn:E;
    cbn [snd]; [|apply IH].
  intros [<-|H]; [|by eapply IH]. simpl.
  destruct bol; [|done]. by apply match_tag_Some in E as [? _].
Qed.

Lemma lower_scripts n : In n section_names -> Py.lower n = "scripts" -> n = "Scripts".
Proof. intros H. simpl in H. repeat destruct H as [<-|H]; done. Qed.

Lemma strip_is_trimmed x v : v = Py.strip x -> Py.strip v = v.
Proof. intros ->. apply strip_idem. Qed.

Lemma fold_store_texts segs secs k v :
  texts (fold_left store_segment segs secs) !! k = Some v ->
  texts secs !! k = Some v
  \/ exists seg, In seg segs /\ k = Py.lower seg.1
                 /\ v = Py.strip (after_tag seg.1 seg.2).
Proof.
  revert secs. induction segs as [|seg segs IH]; intros secs; [by left|].
  simpl. intros [H|(seg' & Hin & Hk & Hv)]%IH.
  - unfold store_segment, store_section in H.
    destruct (String.eqb (Py.lower seg.1) "scripts"); simpl in H; [by left|].
    destruct (decide (Py.lower seg.1 = k)) as [<-|Hne].
    + rewrite lookup_insert_eq in H. injection H as <-.
      right. exists seg. by split; [left|].
    + rewrite lookup_insert_ne in H by done. by left.
  - right. exists seg'. by split; [right|].
Qed.

Lemma fold_store_scripts segs secs l :
  scripts (fold_left store_segment segs secs) = Some l ->
  scripts secs = Some l
  \/ exists seg, In seg segs /\ Py.lower seg.1 = "scripts"
                 /\ l = script_lines (Py.strip (after_tag seg.1 seg.2)).
Proof.
  revert secs. induction segs as [|seg segs IH]; intros secs; [by left|].
  simpl. intros [H|(seg' & Hin & Hk & Hv)]%IH.
  - unfold store_segment, store_section in H.
    destruct (String.eqb (Py.lower seg.1) "scripts") eqn:E; simpl in H;
      [|by left].
    apply String.eqb_eq in E. injection H as <-.
    right. exists seg. by split; [left|].
  - right. exists seg'. by split; [right|].
Qed.

Lemma split_nl_cons c s :
  Py.split_nl (String c s)
  = if Ascii.eqb c Py.LF then "" :: Py.split_nl s
    else match Py.split_nl s with
         | h :: t => String c h :: t
         | [] => [String c ""]
         end.
Proof. reflexivity. Qed.

Lemma split_nl_single_line s :
  Forall (fun e => single_line e = true) (Py.split_nl s).
Proof.
  induction s as [|c s IH]; [by repeat constructor|].
  rewrite split_nl_cons. destruct (Ascii.eqb c Py.LF) eqn:E.
  - by constructor.
  - destruct (Py.split_nl s) as [|h t]; [by repeat constructor; simpl; rewrite E|].
    apply Forall_cons in IH as [Hh Ht]. constructor; [|done].
    simpl. by rewrite E, Hh.
Qed.

Lemma script_lines_single_line content :
  Forall (fun e => single_line e = true) (script_lines content).
Proof.
  unfold script_lines. destruct (Py.truthy content); [|constructor].
  apply split_nl_single_line.
Qed.

Lemma in_sections_of x seg :
  In seg (segments true x).2 -> In (seg.1, after_tag seg.1 seg.2) (sections_of x).
Proof. intros H. unfold sections_of. by apply (in_map (fun seg => (seg.1, after_tag seg.1 seg.2))). Qed.

(** Every text value of the parsed map is the trimmed text of a section
    of the input, stored under the lowercased tag. *)
Lemma parse_template_texts x k v :
  texts (parse_template x) !! k = Some v ->
  Py.strip v = v
  /\ exists n body, In (n, body) (sections_of x) /\ k = Py.lower n
                    /\ v = Py.strip body.
Proof.
  rewrite parse_template_segments.
  intros [H|(seg & Hin & Hk & Hv)]%fold_store_texts; [done|].
  split; [by eapply strip_is_trimmed|].
  exists seg.1, (after_tag seg.1 seg.2). split; [|done].
  by apply in_sections_of.
Qed.

(** The list under ['scripts'] is the trimmed text of a Scripts section
    of the input, cut at its line feeds. *)
Lemma parse_template_scripts x l :
  scripts (parse_template x) = Some l ->
  exists body, In ("Scripts", body) (sections_of x)
               /\ l = script_lines (Py.strip body)
               /\ Forall (fun e => single_line e = true) l.
Proof.
  rewrite parse_template_segments.
  intros [H|(seg & Hin & Hk & Hv)]%fold_store_scripts; [done|].
  exists (after_tag seg.1 seg.2).
  pose proof (lower_scripts _ (segments_names _ _ _ Hin) Hk) as Hn.
  split; [|split; [done|]].
  - rewrite <- Hn at 1. by apply in_sections_of.
  - subst l. apply script_lines_single_line.
Qed.

Lemma parse_single_section n body :
  In n section_names -> tag_free false body = true ->
  sections_of ("[" +:+ n +:+ "]" +:+ body) = [(n, body)]
  /\ parse_template ("[" +:+ n +:+ "]" +:+ body)
     = store_section (Py.lower n) (Py.strip body) no_sections.
Proof.
  intros Hn Hbody. split.
  - unfold sections_of.
    rewrite (segments_tag n _ Hn), (segments_free false body Hbody).
    simpl. by rewrite after_tag_here.
  - rewrite parse_template_segments. by apply fold_last.
Qed.

Lemma contains_char_cons a c s :
  Py.contains (String a "") (String c s)
  = Ascii.eqb a c || Py.contains (String a "") s.
Proof. by rewrite contains_unfold, startswith_cons, startswith_nil, andb_true_r. Qed.

Lemma bracket_prefix_eq w n y :
  Py.startswith (w +:+ "]" +:+ y) (n +:+ "]") = true ->
  Py.contains "]" w = false -> Py.contains "]" n = false -> w = n.
Proof.
  revert n. induction w as [|b w IH]; intros [|a n].
  - done.
  - change ("" +:+ "]" +:+ y) with (String "]" y).
    change (String a n +:+ "]") with (String a (n +:+ "]")).
    rewrite startswith_cons, contains_char_cons.
    intros [Ha _]%andb_true_iff _ [Hn _]%orb_false_iff.
    rewrite Ascii.eqb_sym in Hn. congruence.
  - change ("" +:+ "]") with (String "]" "").
    change (String b w +:+ "]" +:+ y) with (String b (w +:+ "]" +:+ y)).
    rewrite startswith_cons, contains_char_cons.
    intros [Ha _]%andb_true_iff [Hb _]%orb_false_iff _. congruence.
  - rewrite !str_app_cons, startswith_cons, !contains_char_cons.
    intros [Hab H]%andb_true_iff [_ Hw]%orb_false_iff [_ Hn]%orb_false_iff.
    apply Ascii.eqb_eq in Hab as ->. f_equal. by apply IH.
Qed.

Lemma section_names_no_bracket n :
  In n section_names -> Py.contains "]" n = false.
Proof. intros H. simpl in H. repeat destruct H as [<-|H]; done. Qed.

Lemma single_line_app a b :
  single_line (a +:+ b) = single_line a && single_line b.
Proof.
  induction a as [|c a IH]; [done|].
  rewrite str_app_cons. simpl. by rewrite IH, andb_assoc.
Qed.

(** ** Template codec: properties *)

(** C7 (amended).  The parser recognizes the six tags exactly as they are
    spelled, in their fixed case: a tag is matched at the head of a text
    if and only if the text begins with one of the six spellings between
    brackets; such a line opens the section stored under the lowercased
    name; a bracketed name that is none of the six spellings, differing in
    case for instance, opens no section. *)
Theorem tags_are_case_sensitive :
  (forall s n, match_tag s = Some n <->
     In n section_names /\ Py.startswith s ("[" +:+ n +:+ "]") = true)
  /\ (forall n body,
        In n section_names -> tag_free false body = true ->
        parse_template ("[" +:+ n +:+ "]" +:+ body)
        = store_section (Py.lower n) (Py.strip body) no_sections)
  /\ (forall w body,
        ~ In w section_names ->
        Py.contains "]" w = false -> single_line w = true ->
        tag_free false body = true ->
        parse_template ("[" +:+ w +:+ "]" +:+ body) = no_sections).
Proof.
  split; [|split].
  - intros s n. split; [apply match_tag_Some|].
    intros [Hn (r & ->)%startswith_inv].
    rewrite !str_app_assoc. by apply match_tag_here.
  - intros n body Hn Hbody. by apply parse_single_section.
  - intros w body Hw Hbr Hline Hbody.
    assert (Hnone : match_tag ("[" +:+ w +:+ "]" +:+ body) = None).
    { destruct (match_tag _) as [n|] eqn:E; [|done].
      apply match_tag_Some in E as [Hn Hs]. exfalso. apply Hw.
      change ("[" +:+ w +:+ "]" +:+ body) with (String "[" (w +:+ "]" +:+ body)) in Hs.
      change ("[" +:+ n +:+ "]") with (String "[" (n +:+ "]")) in Hs.
      rewrite startswith_cons in Hs. apply andb_true_iff in Hs as [_ Hs].
      rewrite (bracket_prefix_eq w n body Hs Hbr); [done|].
      by apply section_names_no_bracket. }
    rewrite parse_template_segments, segments_free; [done|].
    change ("[" +:+ w +:+ "]" +:+ body) with (String "[" (w +:+ "]" +:+ body)).
    rewrite tag_free_cons.
    change (String "[" (w +:+ "]" +:+ body)) with ("[" +:+ w +:+ "]" +:+ body).
    rewrite Hnone, bool_decide_eq_false_2 by (by intros [? ?]).
    change (Ascii.eqb "[" Py.LF) with false.
    rewrite <- (str_app_assoc w "]" body), tag_free_skip; [done|].
    by rewrite single_line_app, Hline.
Qed.

Lemma tags_are_case_sensitive_witness :
  parse_template ("[" +:+ "introduction" +:+ "]" +:+ Py.nl +:+ "hello")
  = no_sections.
Proof.
  apply (proj2 (proj2 tags_are_case_sensitive) "introduction"
           (Py.nl +:+ "hello")).
  - vm_compute. intuition discriminate.
  - reflexivity.
  - reflexivity.
  - reflexivity.
Defined.

(** C7, counterexample.  The line [[introduction]] opens no section,
    where [[Introduction]] opens the introduction; neither does
    [[SCRIPTS]]. *)
Lemma lowercase_tag_not_recognized :
  parse_template ("[introduction]" +:+ Py.nl +:+ "hello") = no_sections
  /\ parse_template ("[Introduction]" +:+ Py.nl +:+ "hello")
     = Sections (<["introduction" := "hello"]> ∅) None
  /\ parse_template ("[SCRIPTS]" +:+ Py.nl +:+ "run.sh") = no_sections
  /\ parse_template ("[Scripts]" +:+ Py.nl +:+ "run.sh")
     = Sections ∅ (Some ["run.sh"]).
Proof. vm_compute. repeat split; reflexivity. Qed.




(** ** Template loader: saving a draft *)


(** [save_template], once past its guard, writes what [save_draft]
    writes. *)
Lemma save_template_overwrite existing d :
  save_template (Some existing) true d = Some (save_draft (Some existing) d).
Proof. reflexivity. Qed.

(** The carried-over section reads back unchanged from the rewritten
    file when neither it nor the incoming fields hold a recognized tag at
    a line start. *)
Lemma save_draft_reparse existing mt i t doc c sc :
  let old := parse_template existing in
  let d := DraftData mt i t doc (Some "pass") c sc in
  let kept := default "" (texts old !! "conclusion-fail") in
  tag_free true (default "No introduction provided." i) = true ->
  tag_free true (default "No testing methodology provided." t) = true ->
  tag_free true (default "No documentation provided." doc) = true ->
  tag_free true (default "No conclusion available." c) = true ->
  tag_free true kept = true ->
  tag_free true (Py.join_nl (incoming_scripts d)) = true ->
  texts (parse_template (save_draft (Some existing) d)) !! "conclusion-fail"
  = Some kept.
Proof.
  intros old d kept Hi Ht Hd Hc Hk Hs. unfold save_draft. fold old.
  assert (Hkept : Py.strip kept = kept).
  { unfold kept. destruct (texts old !! "conclusion-fail") as [v|] eqn:E; [|done].
    by apply parse_template_texts in E as [? _]. }
  rewrite parse_serialize.
  - simpl texts. rewrite lookup_insert_eq. f_equal.
    unfold update_sections, d; simpl.
    change ("conclusion-" +:+ "pass") with "conclusion-pass".
    rewrite lookup_insert_ne by done. rewrite !lookup_insert_ne by done.
    exact Hkept.
  - unfold update_sections, d; simpl.
    change ("conclusion-" +:+ "pass") with "conclusion-pass".
    by simplify_map_eq.
  - unfold update_sections, d; simpl.
    change ("conclusion-" +:+ "pass") with "conclusion-pass".
    by simplify_map_eq.
  - unfold update_sections, d; simpl.
    change ("conclusion-" +:+ "pass") with "conclusion-pass".
    by simplify_map_eq.
  - unfold update_sections, d; simpl.
    change ("conclusion-" +:+ "pass") with "conclusion-pass".
    by simplify_map_eq.
  - unfold update_sections, d; simpl.
    change ("conclusion-" +:+ "pass") with "conclusion-pass".
    by simplify_map_eq.
  - done.
Qed.

(** ** Strings: lines *)

Lemma join_nl_cons e l :
  Py.join_nl (e :: l)
  = match l with [] => e | _ :: _ => e +:+ Py.nl +:+ Py.join_nl l end.
Proof. by destruct l. Qed.

Lemma split_nl_nonempty s : Py.split_nl s <> [].
Proof.
  destruct s as [|c s]; [done|]. rewrite split_nl_cons.
  destruct (Ascii.eqb c Py.LF); [done|]. by destruct (Py.split_nl s).
Qed.

Lemma join_split s : Py.join_nl (Py.split_nl s) = s.
Proof.
  induction s as [|c s IH]; [done|].
  rewrite split_nl_cons. pose proof (split_nl_nonempty s) as Hne.
  destruct (Ascii.eqb c Py.LF) eqn:E.
  - apply Ascii.eqb_eq in E as ->. rewrite join_nl_cons.
    destruct (Py.split_nl s); [done|]. by rewrite IH.
  - destruct (Py.split_nl s) as [|h t]; [done|].
    rewrite join_nl_cons in *. destruct t; [by rewrite IH|].
    by rewrite str_app_cons, IH.
Qed.

Lemma split_nl_app e y :
  single_line e = true -> Py.split_nl (e +:+ Py.nl +:+ y) = e :: Py.split_nl y.
Proof.
  induction e as [|c e IH]; [done|]. simpl single_line.
  intros [Hc He]%andb_true_iff. apply negb_true_iff in Hc.
  by rewrite str_app_cons, split_nl_cons, Hc, IH.
Qed.

Lemma split_nl_single e : single_line e = true -> Py.split_nl e = [e].
Proof.
  induction e as [|c e IH]; [done|]. simpl single_line.
  intros [Hc He]%andb_true_iff. apply negb_true_iff in Hc.
  by rewrite split_nl_cons, Hc, IH.
Qed.

Lemma split_join l :
  Forall (fun e => single_line e = true) l -> l <> [] ->
  Py.split_nl (Py.join_nl l) = l.
Proof.
  induction l as [|e l IH]; [done|]. intros [He Hl]%Forall_cons _.
  rewrite join_nl_cons. destruct l as [|e' l]; [by apply split_nl_single|].
  rewrite split_nl_app by done. by rewrite IH.
Qed.

Lemma trimmed_cases e : Py.strip e = e -> e = "" \/ solid e.
Proof.
  intros He. unfold Py.strip in He.
  destruct (lstrip_solid_or_nil e) as [H|H].
  - left. by rewrite H in He.
  - right. rewrite <- He. by apply rstrip_solid.
Qed.

Lemma trimmed_rstrip e : Py.strip e = e -> Py.rstrip e = e.
Proof. intros He. rewrite <- He at 1. unfold Py.strip. by rewrite rstrip_idem. Qed.

Lemma solid_app a b : solid a -> solid (a +:+ b).
Proof. intros (c & s & -> & Hc). by exists c, (s +:+ b). Qed.

Lemma solid_ne s : solid s -> s <> "".
Proof. by intros (c & s' & -> & _). Qed.

Lemma rstrip_nil_blank b : Py.rstrip b = "" -> blank b = true.
Proof.
  induction b as [|c b IH]; [done|]. rewrite rstrip_cons.
  destruct (Py.rstrip b); [|done].
  destruct (Py.is_space c) eqn:Hc; [|done]. intros _. simpl. by rewrite Hc, IH.
Qed.

Lemma rstrip_app_ne a b :
  Py.rstrip b <> "" -> Py.rstrip (a +:+ b) = a +:+ Py.rstrip b.
Proof.
  intros Hb. induction a as [|x a IH]; [done|].
  rewrite !str_app_cons, rstrip_cons, IH.
  destruct (a +:+ Py.rstrip b) eqn:E; [|done].
  destruct a; [by rewrite str_app_nil_l in E | done].
Qed.

Lemma lstrip_join l :
  Forall (fun e => Py.strip e = e) l ->
  Py.lstrip (Py.join_nl l) = Py.join_nl (drop_leading_empty l).
Proof.
  induction l as [|e l IH]; [done|]. intros [He Hl]%Forall_cons.
  rewrite join_nl_cons. simpl drop_leading_empty.
  destruct (trimmed_cases e He) as [->|Hs].
  - simpl. destruct l as [|e' l]; [done|].
    rewrite str_app_nil_l. change (Py.nl +:+ ?x) with (String Py.LF x).
    rewrite lstrip_cons. simpl Py.is_space. by apply IH.
  - assert (String.eqb e "" = false) as ->.
    { apply String.eqb_neq. by apply solid_ne. }
    rewrite join_nl_cons.
    destruct l; apply lstrip_of_solid; [done|by apply solid_app].
Qed.

Lemma join_trailing_ne l :
  drop_trailing_empty l <> [] -> Py.join_nl (drop_trailing_empty l) <> "".
Proof.
  induction l as [|e l IH]; [done|]. simpl.
  destruct (drop_trailing_empty l) as [|e' r] eqn:E.
  - destruct (String.eqb e "") eqn:He; [done|].
    intros _. simpl. by apply String.eqb_neq.
  - intros _. rewrite join_nl_cons. destruct e; [done|]. done.
Qed.

Lemma rstrip_join l :
  Forall (fun e => Py.strip e = e) l ->
  Py.rstrip (Py.join_nl l) = Py.join_nl (drop_trailing_empty l).
Proof.
  induction l as [|e l IH]; [done|]. intros [He Hl]%Forall_cons.
  specialize (IH Hl). pose proof (join_trailing_ne l) as Hne.
  rewrite join_nl_cons. simpl drop_trailing_empty.
  assert (Hfinal : Py.join_nl (if String.eqb e "" then [] else [e]) = e).
  { destruct (String.eqb_spec e ""); by subst. }
  destruct l as [|e' l].
  - simpl. rewrite Hfinal. by apply trimmed_rstrip.
  - destruct (drop_trailing_empty (e' :: l)) as [|e'' r] eqn:E.
    + rewrite Hfinal, rstrip_app_blank; [by apply trimmed_rstrip|].
      change (Py.nl +:+ ?x) with (String Py.LF x). simpl blank.
      by apply rstrip_nil_blank.
    + rewrite <- str_app_assoc, rstrip_app_ne, IH, str_app_assoc.
      * by rewrite (join_nl_cons e (e'' :: r)).
      * rewrite IH. by apply Hne.
Qed.

Lemma drop_leading_Forall (P : string -> Prop) l :
  Forall P l -> Forall P (drop_leading_empty l).
Proof.
  induction 1 as [|e l He Hl IH]; [done|]. simpl.
  destruct (String.eqb e ""); [done|by constructor].
Qed.

Lemma drop_trailing_Forall (P : string -> Prop) l :
  Forall P l -> Forall P (drop_trailing_empty l).
Proof.
  induction 1 as [|e l He Hl IH]; [done|]. simpl.
  destruct (drop_trailing_empty l); [|by constructor].
  destruct (String.eqb e ""); [done|by repeat constructor].
Qed.

Lemma non_empty_drop_leading l :
  non_empty_lines (drop_leading_empty l) = non_empty_lines l.
Proof.
  unfold non_empty_lines.
  induction l as [|e l IH]; [done|]. simpl.
  destruct (String.eqb e "") eqn:E; simpl; unfold Py.truthy; rewrite E; simpl;
    [exact IH | reflexivity].
Qed.

Lemma non_empty_drop_trailing l :
  non_empty_lines (drop_trailing_empty l) = non_empty_lines l.
Proof.
  unfold non_empty_lines.
  induction l as [|e l IH]; [done|]. simpl. rewrite <- IH.
  destruct (drop_trailing_empty l); simpl; unfold Py.truthy;
    destruct (String.eqb e "") eqn:E; simpl; rewrite ?E; reflexivity.
Qed.

(** The script list read back from the joined entries, when these are
    trimmed single lines: the same entries up to empty ones. *)
Lemma script_lines_join l :
  Forall (fun e => Py.strip e = e) l ->
  Forall (fun e => single_line e = true) l ->
  non_empty_lines (script_lines (Py.strip (Py.join_nl l))) = non_empty_lines l.
Proof.
  intros Htrim Hline. unfold Py.strip.
  rewrite lstrip_join, rstrip_join by (try done; by apply drop_leading_Forall).
  set (r := drop_trailing_empty (drop_leading_empty l)).
  assert (Hr : script_lines (Py.join_nl r) = r).
  { unfold script_lines. destruct r as [|e r'] eqn:E; [done|].
    assert (Py.join_nl (e :: r') <> "") as Hne.
    { rewrite <- E. apply join_trailing_ne. fold r. by rewrite E. }
    unfold Py.truthy. apply String.eqb_neq in Hne. rewrite Hne. simpl negb.
    apply split_join; [|done]. rewrite <- E.
    apply drop_trailing_Forall. by apply drop_leading_Forall. }
  rewrite Hr. unfold r.
  by rewrite non_empty_drop_trailing, non_empty_drop_leading.
Qed.

(** ** Template codec: the round trip *)

Local Arguments Py.join_nl : simpl never.
Local Arguments script_lines : simpl never.

Lemma tag_free_single_line bol e :
  single_line e = true ->
  tag_free bol e = negb (bol && bool_decide (is_Some (match_tag e))).
Proof.
  destruct e as [|c e]; intros He.
  - by destruct bol.
  - rewrite tag_free_cons. simpl in He. apply andb_true_iff in He as [Hc He].
    apply negb_true_iff in Hc. rewrite Hc.
    rewrite <- (str_app_nil_r e), tag_free_skip by done. by rewrite andb_true_r.
Qed.

Lemma tag_free_join l :
  Forall script_ok l -> tag_free true (Py.join_nl l) = true.
Proof.
  induction l as [|e l IH]; [done|]. intros [(_ & He & Htag) Hl]%Forall_cons.
  assert (tag_free true e = true) as Hfree.
  { rewrite tag_free_single_line, Htag by done.
    by rewrite bool_decide_eq_false_2 by (by intros [? ?]). }
  rewrite join_nl_cons. destruct l as [|e' l]; [done|].
  by rewrite tag_free_nl, Hfree, IH.
Qed.

Lemma lower_text_key n :
  In n section_names -> Py.lower n <> "scripts" -> In (Py.lower n) text_keys.
Proof.
  intros H. simpl in H. repeat destruct H as [<-|H]; try done;
    intros _; vm_compute; tauto.
Qed.

(** The text keys of a parsed map are among the five. *)
Lemma parse_template_keys x k v :
  texts (parse_template x) !! k = Some v -> In k text_keys.
Proof.
  rewrite parse_template_segments.
  assert (Hgen : forall segs secs,
    (forall seg, In seg segs -> In seg.1 section_names) ->
    (forall k v, texts secs !! k = Some v -> In k text_keys) ->
    forall k v, texts (fold_left store_segment segs secs) !! k = Some v ->
                In k text_keys).
  { induction segs as [|seg segs IH]; intros secs Hsegs Hsecs k' v';
      [by apply Hsecs|].
    simpl. apply IH; [intros; apply Hsegs; by right|].
    intros k'' v''. unfold store_segment, store_section.
    destruct (String.eqb (Py.lower seg.1) "scripts") eqn:E; simpl;
      [by apply Hsecs|].
    destruct (decide (Py.lower seg.1 = k'')) as [<-|Hne].
    - intros _. apply lower_text_key; [apply Hsegs; by left|].
      by apply String.eqb_neq.
    - rewrite lookup_insert_ne by done. by apply Hsecs. }
  apply Hgen; [apply segments_names|done].
Qed.

Lemma default_tag_free secs k :
  (forall v, texts secs !! k = Some v -> tag_free true v = true) ->
  tag_free true (default "" (texts secs !! k)) = true.
Proof. intros H. destruct (texts secs !! k); [by apply H|done]. Qed.

(** C1 (amended).  First form: for a section map whose text values under
    the five text keys are trimmed and hold no recognized tag at a line
    start, and whose script entries are trimmed single lines that do not
    start with a recognized tag, parsing the serialized map gives back
    the value of every text key present, and the scripts as the same list
    of non-empty lines.  Second form: for an input text whose parsed
    contents hold no recognized tag at a line start, parsing the
    serialization of the parsed map gives back every text value and the
    script list of the parsed map. *)
Theorem template_round_trip :
  (forall secs, representable secs ->
     (forall k v, In k text_keys -> texts secs !! k = Some v ->
        texts (parse_template (serialize secs)) !! k = Some v)
     /\ (forall l, scripts secs = Some l ->
           non_empty_lines
             (default [] (scripts (parse_template (serialize secs))))
           = non_empty_lines l))
  /\ (forall x, tag_free_sections (parse_template x) ->
        (forall k v, texts (parse_template x) !! k = Some v ->
           texts (parse_template (serialize (parse_template x))) !! k = Some v)
        /\ default [] (scripts (parse_template (serialize (parse_template x))))
           = default [] (scripts (parse_template x))).
Proof.
  split.
  - intros secs [Htexts Hscripts].
    assert (Hfree : forall k, In k text_keys ->
              tag_free true (default "" (texts secs !! k)) = true).
    { intros k Hk. apply default_tag_free. intros v Hv.
      by destruct (Htexts k v Hk Hv). }
    assert (Hparse := parse_serialize secs). cbv zeta in Hparse.
    rewrite Hparse; clear Hparse.
    + split.
      * intros k v Hk Hv. destruct (Htexts k v Hk Hv) as [Htrim _].
        simpl in Hk. simpl texts.
        repeat destruct Hk as [<-|Hk]; try done;
          rewrite ?lookup_insert_ne by done; rewrite lookup_insert_eq;
          by rewrite Hv; simpl; rewrite Htrim.
      * intros l Hl. rewrite Hl. simpl scripts.
        specialize (Hscripts l Hl). destruct l as [|e l]; [done|]. simpl default.
        apply script_lines_join; eapply Forall_impl; try exact Hscripts;
          by intros ? (? & ? & ?).
    + apply Hfree. simpl; tauto.
    + apply Hfree. simpl; tauto.
    + apply Hfree. simpl; tauto.
    + apply Hfree. simpl; tauto.
    + apply Hfree. simpl; tauto.
    + destruct (scripts secs) as [l|] eqn:E; [|done]. simpl.
      apply tag_free_join. by apply Hscripts.
  - intros x [Htexts Hscripts].
    assert (Hfree : forall k, In k text_keys ->
              tag_free true (default "" (texts (parse_template x) !! k)) = true).
    { intros k Hk. apply default_tag_free. intros v Hv. by apply (Htexts k v). }
    assert (Hparse := parse_serialize (parse_template x)). cbv zeta in Hparse.
    rewrite Hparse; clear Hparse.
    + split.
      * intros k v Hv. pose proof (parse_template_keys x k v Hv) as Hk.
        destruct (parse_template_texts x k v Hv) as [Htrim _].
        simpl in Hk. simpl texts.
        repeat destruct Hk as [<-|Hk]; try done;
          rewrite ?lookup_insert_ne by done; rewrite lookup_insert_eq;
          by rewrite Hv; simpl; rewrite Htrim.
      * simpl scripts. destruct (scripts (parse_template x)) as [l|] eqn:E;
          [|done].
        destruct (parse_template_scripts x l E) as (body & _ & Hl & _).
        destruct l as [|e l]; [done|]. simpl default. f_equal.
        assert (Hc : Py.truthy (Py.strip body) = true).
        { unfold script_lines in Hl. by destruct (Py.truthy (Py.strip body)). }
        assert (Hjoin : Py.join_nl (e :: l) = Py.strip body).
        { rewrite Hl. unfold script_lines. rewrite Hc. apply join_split. }
        by rewrite Hjoin, strip_idem.
    + apply Hfree. simpl; tauto.
    + apply Hfree. simpl; tauto.
    + apply Hfree. simpl; tauto.
    + apply Hfree. simpl; tauto.
    + apply Hfree. simpl; tauto.
    + destruct (scripts (parse_template x)) as [l|] eqn:E; [|done]. simpl.
      by apply Hscripts.
Qed.

Lemma template_round_trip_witness :
  texts (parse_template (serialize Example.report)) !! "introduction"
  = Some "Scope and goals."
  /\ texts (parse_template (serialize Example.report)) !! "conclusion-pass"
     = Some "Nothing found."
  /\ non_empty_lines
       (default [] (scripts (parse_template (serialize Example.report))))
     = non_empty_lines [""; "nmap -sV"; ""; "nikto -h"].
Proof.
  assert (Hrep : representable Example.report).
  { split.
    - intros k v Hk Hv. simpl in Hk.
      repeat destruct Hk as [<-|Hk]; try done; vm_compute in Hv;
        try discriminate; injection Hv as <-; split; reflexivity.
    - intros l [= <-]. repeat constructor. }
  destruct (proj1 template_round_trip Example.report Hrep) as [Htexts Hscripts].
  split; [|split].
  - apply Htexts; [simpl; tauto | reflexivity].
  - apply Htexts; [simpl; tauto | reflexivity].
  - apply Hscripts. reflexivity.
Defined.

(** C1, counterexample.  A tag that follows its section tag on the same
    line is content for the parser, but stands at a line start once
    serialized: the text [[conclusion-fail] [Testing] foo] parses to the
    single section conclusion-fail with content [[Testing] foo], and
    parsing the serialization of that map gives an empty conclusion-fail
    and a testing section [foo].  A value that is not trimmed does not
    survive either. *)
Lemma round_trip_breaks_on_inline_tag :
  parse_template Example.inline_tag
  = Sections (<["conclusion-fail" := "[Testing] foo"]> ∅) None
  /\ texts (parse_template (serialize (parse_template Example.inline_tag)))
       !! "conclusion-fail" = Some ""
  /\ texts (parse_template (serialize (parse_template Example.inline_tag)))
       !! "testing" = Some "foo"
  /\ texts (parse_template
              (serialize (Sections (<["introduction" := " padded "]> ∅) None)))
       !! "introduction" = Some "padded".
Proof. vm_compute. repeat split; reflexivity. Qed.

(** ** Mission cache: further properties *)

Section CacheReplay.

Context {mission : Type}.
Implicit Types (st : Api.cache_state mission) (dk : Api.disk mission).
Implicit Types (srv : Api.server mission).

(** X1.  A call of [get_all_missions] that reports success leaves the
    caches such that the next call without [force_refresh] returns the
    same mission list, again with success, without any request to the
    platform and without touching the files, whatever the platform would
    answer and whatever the clock shows. *)
Theorem successful_call_is_replayed fuel srv now force_refresh st dk out
    missions status fuel' srv' now' :
  Api.get_all_missions fuel srv now force_refresh st dk = Some out ->
  Api.result out = Api.Returns (missions, status) ->
  Api.success status = true ->
  exists out' source,
    Api.get_all_missions fuel' srv' now' false
      (Api.state_after out) (Api.disk_after out) = Some out'
    /\ Api.result out' = Api.Returns (missions, Api.Status true source None)
    /\ Api.requests out' = []
    /\ Api.disk_after out' = Api.disk_after out.
Proof.
  unfold Api.get_all_missions, Api.cache_fallback.
  destruct (Api.has_loaded_initial st) eqn:Hflag; simpl.
  - destruct (if negb force_refresh then Api.cached_missions st else None)
      as [cached|] eqn:Hc.
    + intros [= <-] [= <- <-] _; simpl. rewrite Hflag; simpl.
      destruct force_refresh; [done|]. simpl in Hc. rewrite Hc.
      by eexists _, _.
    + destruct (Api.read_auth_token dk) as [[|c token]|];
        [by intros [= <-] [= <- <-]| |by intros [= <-] [= <- <-]].
      destruct (Api.fetch_pages fuel srv 1 [] []) as [[[[|t ts]|[e|e]] req]|];
        try done; try (by intros [= <-] [= <- <-]).
      intros [= <-] [= <- <-] _; simpl. by eexists _, _.
  - destruct (Api.load_cached_tasks dk) as [|m ms] eqn:Hdisk.
    + destruct (if negb force_refresh then Api.cached_missions st else None)
        as [cached|] eqn:Hc.
      * intros [= <-] [= <- <-] _; simpl. rewrite Hflag, Hdisk; simpl.
        destruct force_refresh; [done|]. simpl in Hc. rewrite Hc.
        by eexists _, _.
      * destruct (Api.read_auth_token dk) as [[|c token]|];
          [by intros [= <-] [= <- <-]| |by intros [= <-] [= <- <-]].
        destruct (Api.fetch_pages fuel srv 1 [] []) as [[[[|t ts]|[e|e]] req]|];
          try done; try (by intros [= <-] [= <- <-]).
        intros [= <-] [= <- <-] _; simpl. by eexists _, _.
    + intros [= <-] [= <- <-] _; simpl. by eexists _, _.
Qed.

(** X2.  While the token file is missing or holds white space only,
    [get_all_missions] returns (whatever the fuel), sends no request to
    the platform and leaves [tasks.json] as it is; the missions it
    returns are then the initial or in-memory cache, or the content of
    [tasks.json] with the error [No auth token found]. *)
Theorem no_token_no_request fuel srv now force_refresh st dk :
  no_token dk ->
  exists out missions status,
    Api.get_all_missions fuel srv now force_refresh st dk = Some out
    /\ Api.result out = Api.Returns (missions, status)
    /\ Api.requests out = []
    /\ Api.disk_after out = dk
    /\ (Api.success status = false ->
        missions = Api.load_cached_tasks dk
        /\ status = Api.Status false "cache_fallback"
                      (Some "No auth token found")
        /\ Api.state_after out = st).
Proof.
  intros Htok.
  assert (Hread : Api.read_auth_token dk = None
                  \/ Api.read_auth_token dk = Some "").
  { unfold no_token in Htok. unfold Api.read_auth_token.
    destruct (Api.token_file dk) as [text|]; [right|by left].
    unfold Py.strip. by rewrite (lstrip_blank text Htok). }
  unfold Api.get_all_missions, Api.cache_fallback.
  destruct (negb (Api.has_loaded_initial st)); simpl;
    [destruct (Api.load_cached_tasks dk) as [|m ms] eqn:Hdisk;
       [|by eexists _, _, _]|];
    (destruct (if negb force_refresh then Api.cached_missions st else None);
       [by eexists _, _, _|]);
    destruct Hread as [-> | ->]; eexists _, _, _; by rewrite ?Hdisk.
Qed.

(** X3.  When [force_refresh_missions] reports failure, the in-memory
    cache is empty afterwards, even if it held missions before the call,
    and the last fetch time is reset: the missions returned are the
    content of [tasks.json], and the files are untouched. *)
Theorem failed_force_refresh_clears_memory fuel srv now st dk out
    missions status :
  Api.force_refresh_missions fuel srv now st dk = Some out ->
  Api.result out = Api.Returns (missions, status) ->
  Api.success status = false ->
  Api.cached_missions (Api.state_after out) = None
  /\ Api.last_fetch_time (Api.state_after out) = 0%Z
  /\ Api.has_loaded_initial (Api.state_after out) = Api.has_loaded_initial st
  /\ missions = Api.load_cached_tasks dk
  /\ Api.source status = "cache_fallback"
  /\ Api.disk_after out = dk.
Proof.
  unfold Api.force_refresh_missions, Api.get_all_missions, Api.cache_fallback.
  simpl.
  destruct (negb (Api.has_loaded_initial st)); simpl;
    [destruct (Api.load_cached_tasks dk) as [|m ms] eqn:Hdisk;
       [|by intros [= <-] [= <- <-]]|];
    (destruct (Api.read_auth_token dk) as [[|c token]|];
       [by intros [= <-] [= <- <-]| |by intros [= <-] [= <- <-]]);
    (destruct (Api.fetch_pages fuel srv 1 [] []) as [[[[|t ts]|[e|e]] req]|];
       try done; by intros [= <-] [= <- <-]).
Qed.

(** The loop runs through [n] full pages. *)
Lemma fetch_pages_full n : forall fuel srv page tasks requested,
  (forall i, (i < n)%nat -> full_page (srv (page + i)%nat)) ->
  Api.fetch_pages (n + fuel) srv page tasks requested
  = Api.fetch_pages fuel srv (page + n) (tasks ++ collected srv page n)
                    (requested ++ seq page n).
Proof.
  induction n as [|n IH]; intros fuel srv page tasks requested Hfull.
  - unfold collected; simpl. by rewrite Nat.add_0_r, !app_nil_r.
  - destruct (Hfull 0%nat ltac:(lia)) as (l & Hl & Hlen).
    rewrite Nat.add_0_r in Hl.
    change (S n + fuel)%nat with (S (n + fuel)).
    cbn [Api.fetch_pages]. rewrite Hl. simpl Z.eqb. cbv iota.
    assert ((length l <? Api.per_page)%nat = false) as ->
      by by apply Nat.ltb_ge.
    rewrite IH.
    + unfold collected. cbn [seq flat_map]. rewrite Hl.
      rewrite <- !app_assoc. simpl. by rewrite Nat.add_succ_r.
    + intros i Hi. replace (S page + i)%nat with (page + S i)%nat by lia.
      apply Hfull. lia.
Qed.

(** X4.  Pagination: when the pages 1 to [n] each come back with status
    200 and at least 20 missions and page [n + 1] comes back with status
    200 and fewer than 20, the loop ends after exactly the requests for
    the pages 1, ..., [n + 1], in this order, and returns the missions of
    all these pages in page order. *)
Theorem pagination_collects_every_page n fuel srv last :
  (forall p, (1 <= p <= n)%nat -> full_page (srv p)) ->
  srv (S n) = Api.Response 200 last ->
  (length last < Api.per_page)%nat ->
  Api.fetch_pages (n + S fuel) srv 1 [] []
  = Some (Api.Returns (collected srv 1 n ++ last), seq 1 (S n)).
Proof.
  intros Hfull Hlast Hshort.
  rewrite fetch_pages_full by (intros i Hi; apply Hfull; lia).
  cbn [Api.fetch_pages]. replace (1 + n)%nat with (S n) by lia.
  rewrite Hlast. simpl Z.eqb. cbv iota.
  apply Nat.ltb_lt in Hshort. rewrite Hshort.
  do 3 f_equal. simpl app. by rewrite seq_S.
Qed.

(** X5.  A page answered with a status other than 200 and 401 after [n]
    full pages ([n] at least 1) ends the pagination silently: a forced
    call that reaches the platform reports success with source [api] and
    returns the missions of the first [n] pages only, and both the
    in-memory cache and [tasks.json] are overwritten with this partial
    list. *)
Theorem server_error_truncates_silently n fuel srv now st dk code body :
  reaches_fetch st dk ->
  (1 <= n)%nat ->
  (forall p, (1 <= p <= n)%nat -> full_page (srv p)) ->
  srv (S n) = Api.Response code body ->
  code <> 200%Z -> code <> 401%Z ->
  Api.get_all_missions (n + S fuel) srv now true st dk
  = Some (Api.Outcome
            (Api.Returns (collected srv 1 n, Api.Status true "api" None))
            (Api.CacheState now (Some (collected srv 1 n))
                            (Api.has_loaded_initial st))
            (Api.Disk (Some (collected srv 1 n)) now (Api.token_file dk))
            (seq 1 (S n))).
Proof.
  intros Hreach Hn Hfull Hlast H200 H401.
  rewrite get_all_missions_after_initial by done.
  rewrite fetch_pages_full by (intros i Hi; apply Hfull; lia).
  cbn [Api.fetch_pages]. replace (1 + n)%nat with (S n) by lia.
  rewrite Hlast. apply Z.eqb_neq in H200, H401. rewrite H200, H401.
  simpl app. rewrite <- seq_S.
  destruct (collected srv 1 n) as [|t ts] eqn:Hc; [|done].
  exfalso. destruct n as [|n]; [lia|].
  destruct (Hfull 1%nat ltac:(lia)) as (l & Hl & Hlen).
  unfold collected in Hc. cbn [seq flat_map] in Hc. rewrite Hl in Hc.
  destruct l; [unfold Api.per_page in Hlen; simpl in Hlen; lia|done].
Qed.

End CacheReplay.

Lemma successful_call_is_replayed_witness :
  exists out' source,
    Api.get_all_missions 0 (always (Api.ConnectionError "down")) 60 false
      (Api.CacheState 50 (Some [7%nat]) false)
      (Api.Disk (Some [7%nat]) 50 (Some "token")) = Some out'
    /\ Api.result out' = Api.Returns ([7%nat], Api.Status true source None)
    /\ Api.requests out' = []
    /\ Api.disk_after out' = Api.Disk (Some [7%nat]) 50 (Some "token").
Proof.
  apply (successful_call_is_replayed 3 (always (Api.Response 200 [7%nat])) 50
           false Api.startup (Api.Disk None 0 (Some "token"))
           (Api.Outcome
              (Api.Returns ([7%nat], Api.Status true "api" None))
              (Api.CacheState 50 (Some [7%nat]) false)
              (Api.Disk (Some [7%nat]) 50 (Some "token")) [1%nat])
           [7%nat] (Api.Status true "api" None)
           0 (always (Api.ConnectionError "down")) 60); reflexivity.
Defined.

Lemma no_token_no_request_witness :
  exists out missions status,
    Api.get_all_missions 0 (always (Api.Response 200 [7%nat])) 50 true
      (Api.CacheState 10 (Some [3%nat]) true)
      (Api.Disk (Some [7%nat]) 42 (Some "  ")) = Some out
    /\ Api.result out = Api.Returns (missions, status)
    /\ Api.requests out = []
    /\ Api.disk_after out = Api.Disk (Some [7%nat]) 42 (Some "  ")
    /\ (Api.success status = false ->
        missions = [7%nat]
        /\ status = Api.Status false "cache_fallback"
                      (Some "No auth token found")
        /\ Api.state_after out = Api.CacheState 10 (Some [3%nat]) true).
Proof.
  apply (no_token_no_request 0 (always (Api.Response 200 [7%nat])) 50 true
           (Api.CacheState 10 (Some [3%nat]) true)
           (Api.Disk (Some [7%nat]) 42 (Some "  "))).
  reflexivity.
Defined.

Lemma failed_force_refresh_clears_memory_witness :
  Api.cached_missions (Api.CacheState 0 (@None (list nat)) true) = None
  /\ Api.last_fetch_time (Api.CacheState 0 (@None (list nat)) true) = 0%Z
  /\ Api.has_loaded_initial (Api.CacheState 0 (@None (list nat)) true) = true
  /\ [7%nat] = Api.load_cached_tasks (Api.Disk (Some [7%nat]) 42 (Some "token"))
  /\ Api.source (Api.Status false "cache_fallback"
                   (Some "Network error while fetching tasks: refused"))
     = "cache_fallback"
  /\ Api.disk_after
       (Api.Outcome
          (Api.Returns ([7%nat],
             Api.Status false "cache_fallback"
               (Some "Network error while fetching tasks: refused")))
          (Api.CacheState 0 None true)
          (Api.Disk (Some [7%nat]) 42 (Some "token")) [1%nat])
     = Api.Disk (Some [7%nat]) 42 (Some "token").
Proof.
  apply (failed_force_refresh_clears_memory 1
           (always (Api.ConnectionError "refused")) 50
           (Api.CacheState 10 (Some [3%nat]) true)
           (Api.Disk (Some [7%nat]) 42 (Some "token"))
           (Api.Outcome
              (Api.Returns ([7%nat],
                 Api.Status false "cache_fallback"
                   (Some "Network error while fetching tasks: refused")))
              (Api.CacheState 0 None true)
              (Api.Disk (Some [7%nat]) 42 (Some "token")) [1%nat])
           [7%nat]
           (Api.Status false "cache_fallback"
              (Some "Network error while fetching tasks: refused")));
    reflexivity.
Defined.

Lemma pagination_collects_every_page_witness :
  Api.fetch_pages 2 two_pages 1 [] []
  = Some (Api.Returns (collected two_pages 1 1 ++ [8%nat; 9%nat]), [1%nat; 2%nat]).
Proof.
  apply (pagination_collects_every_page 1 0 two_pages [8%nat; 9%nat]).
  - intros p Hp. assert (p = 1%nat) as -> by lia.
    exists (repeat 7%nat 20). split; [reflexivity|].
    unfold Api.per_page. simpl. lia.
  - reflexivity.
  - unfold Api.per_page. simpl. lia.
Defined.

Lemma server_error_truncates_silently_witness :
  Api.get_all_missions 2 failing_second_page 50 true
    (Api.CacheState 10 (Some [3%nat]) true)
    (Api.Disk (Some [3%nat]) 10 (Some "token"))
  = Some (Api.Outcome
            (Api.Returns (collected failing_second_page 1 1,
                          Api.Status true "api" None))
            (Api.CacheState 50 (Some (collected failing_second_page 1 1)) true)
            (Api.Disk (Some (collected failing_second_page 1 1)) 50
                      (Some "token"))
            [1%nat; 2%nat]).
Proof.
  apply (server_error_truncates_silently 1 0 failing_second_page 50
           (Api.CacheState 10 (Some [3%nat]) true)
           (Api.Disk (Some [3%nat]) 10 (Some "token")) 500 []).
  - split; [left; reflexivity|]. exists "token".
    split; [reflexivity | discriminate].
  - lia.
  - intros p Hp. assert (p = 1%nat) as -> by lia.
    exists (repeat 7%nat 20). split; [reflexivity|].
    unfold Api.per_page. simpl. lia.
  - reflexivity.
  - lia.
  - lia.
Defined.
